(** * Behavioral authentication engine: vector pipeline, phases and decisions

    A shallow embedding of [enhanced_faiss_engine.py] (class
    [EnhancedFAISSEngine]) and the properties of its decision policy,
    cumulative update, phase transition and user-id mapping.

    Conventions of the embedding.
    - A Python [float] is an IEEE 754 binary64 number: Rocq's primitive
      [float], with the same rounding.  A numpy array is a [list float];
      element-wise operations are the binary64 ones, reductions ([np.dot],
      [np.sum]) run left to right.
    - A Python [int] is a [Z], which enters float arithmetic only below
      2^1024 - 2^970 (from there on the conversion raises); a [str] is a
      [string] (its UTF-8 bytes), and a value that is a [str] or [None] is
      an [option string].
    - The engine object is a record [World]; every method is a function in
      the monad [M], which threads the world and models a raised exception
      as [inl msg] (the world keeps the writes made before the raise).
    - The database client and the behavioural processor are external: each
      database call is logged in the world and answered by a reply oracle
      (the n-th call gets the n-th reply: rows, or a raise with its
      message); the processors are functions given to the pipeline.  The
      requests of [initialize] and [get_user_learning_status], which only
      read, are not logged: their replies are arguments.  A column of a
      row that the code reads with [dict.get] is missing, NULL or a value.
    - The text of the exception numpy raises on the statistics of an empty
      array depends on its version; it is a field of the environment.
    - A profile object is shared between the cache and the methods it is
      passed to; the object passed along with a user id is the cache entry
      of that id, and a write to it is a write to that entry.
    - Not modelled: the casts to float32 on the way into FAISS; the dtype
      of an array (the vector [end_session_update] casts to float32 holds
      the rounded values, but the float32 arithmetic numpy then does on it
      is not followed, and no property below states a value computed from
      it); the log messages, the metadata of the stored records other than
      [vector_count], and the difference between two readings of the clock
      within one call ([utcnow] is one reading, and its ISO text is its
      decimal rendering). *)

From Stdlib Require Import ZArith List String Ascii Floats Lia Bool DecimalString.
From stdpp Require Import base option gmap strings.
Import ListNotations.
Set Warnings "-inexact-float".
Open Scope string_scope.
Open Scope Z_scope.

(** ** hashlib.md5 (RFC 1321) *)

Module MD5.

Definition w32 (x : Z) : Z := x mod 2 ^ 32.

Definition rotl (x : Z) (c : Z) : Z :=
  w32 (Z.lor (Z.shiftl x c) (Z.shiftr x (32 - c))).

Definition lnot32 (x : Z) : Z := Z.lxor x 4294967295.

Definition K : list Z :=
  [ 3614090360; 3905402710; 606105819; 3250441966;
    4118548399; 1200080426; 2821735955; 4249261313;
    1770035416; 2336552879; 4294925233; 2304563134;
    1804603682; 4254626195; 2792965006; 1236535329;
    4129170786; 3225465664; 643717713; 3921069994;
    3593408605; 38016083; 3634488961; 3889429448;
    568446438; 3275163606; 4107603335; 1163531501;
    2850285829; 4243563512; 1735328473; 2368359562;
    4294588738; 2272392833; 1839030562; 4259657740;
    2763975236; 1272893353; 4139469664; 3200236656;
    681279174; 3936430074; 3572445317; 76029189;
    3654602809; 3873151461; 530742520; 3299628645;
    4096336452; 1126891415; 2878612391; 4237533241;
    1700485571; 2399980690; 4293915773; 2240044497;
    1873313359; 4264355552; 2734768916; 1309151649;
    4149444226; 3174756917; 718787259; 3951481745 ].

Definition S : list Z :=
  [ 7; 12; 17; 22; 7; 12; 17; 22; 7; 12; 17; 22; 7; 12; 17; 22;
    5; 9; 14; 20; 5; 9; 14; 20; 5; 9; 14; 20; 5; 9; 14; 20;
    4; 11; 16; 23; 4; 11; 16; 23; 4; 11; 16; 23; 4; 11; 16; 23;
    6; 10; 15; 21; 6; 10; 15; 21; 6; 10; 15; 21; 6; 10; 15; 21 ].

(** The four chaining words A, B, C, D. *)
Record state := mk_state { sa : Z; sb : Z; sc : Z; sd : Z }.

Definition init : state :=
  mk_state 1732584193 4023233417 2562383102 271733878.

(** Little-endian bytes of a number, [n] of them. *)
Fixpoint le_bytes (n : nat) (x : Z) : list Z :=
  match n with
  | O => []
  | Datatypes.S n' => x mod 256 :: le_bytes n' (x / 256)
  end.

Fixpoint le_word (bs : list Z) : Z :=
  match bs with
  | [] => 0
  | b :: bs' => b + 256 * le_word bs'
  end.

(** Message padding: 0x80, zeros up to 56 mod 64, 64-bit bit length. *)
Definition pad (msg : list Z) : list Z :=
  let len := Z.of_nat (length msg) in
  let zeros := Z.to_nat ((55 - len) mod 64) in
  msg ++ [128] ++ repeat 0 zeros ++ le_bytes 8 ((8 * len) mod 2 ^ 64).

(** Split into chunks of [n] elements (the last may be shorter). *)
Fixpoint chunks_fuel (fuel n : nat) (l : list Z) : list (list Z) :=
  match fuel with
  | O => []
  | Datatypes.S fuel' =>
      match l with
      | [] => []
      | _ => firstn n l :: chunks_fuel fuel' n (skipn n l)
      end
  end.

Definition chunks (n : nat) (l : list Z) : list (list Z) :=
  chunks_fuel (length l) n l.

Definition words (block : list Z) : list Z := map le_word (chunks 4 block).

Definition round (m : list Z) (st : state) (i : Z) : state :=
  let '(mk_state a b c d) := st in
  let f :=
    if i <? 16 then Z.lor (Z.land b c) (Z.land (lnot32 b) d)
    else if i <? 32 then Z.lor (Z.land d b) (Z.land (lnot32 d) c)
    else if i <? 48 then Z.lxor b (Z.lxor c d)
    else Z.lxor c (Z.lor b (lnot32 d)) in
  let g :=
    if i <? 16 then i
    else if i <? 32 then (5 * i + 1) mod 16
    else if i <? 48 then (3 * i + 5) mod 16
    else (7 * i) mod 16 in
  let f' := w32 (f + a + nth (Z.to_nat i) K 0 + nth (Z.to_nat g) m 0) in
  mk_state d (w32 (b + rotl f' (nth (Z.to_nat i) S 0))) b c.

Definition process_block (st : state) (block : list Z) : state :=
  let m := words block in
  let st' := fold_left (round m) (map Z.of_nat (seq 0 64)) st in
  mk_state (w32 (sa st + sa st')) (w32 (sb st + sb st'))
           (w32 (sc st + sc st')) (w32 (sd st + sd st')).

Definition digest_state (msg : list Z) : state :=
  fold_left process_block (chunks 64 (pad msg)) init.

(** The 16 digest bytes. *)
Definition digest (msg : list Z) : list Z :=
  let st := digest_state msg in
  le_bytes 4 (sa st) ++ le_bytes 4 (sb st)
    ++ le_bytes 4 (sc st) ++ le_bytes 4 (sd st).

Definition hex_digit (n : Z) : ascii :=
  nth (Z.to_nat n)
      (list_ascii_of_string "0123456789abcdef") "0"%char.

Definition hex_byte (b : Z) : list ascii :=
  [hex_digit (b / 16); hex_digit (b mod 16)].

Definition bytes_of_string (s : string) : list Z :=
  map (fun c => Z.of_nat (nat_of_ascii c)) (list_ascii_of_string s).

(** [hashlib.md5(s.encode()).hexdigest()] *)
Definition hexdigest (s : string) : string :=
  string_of_list_ascii (concat (map hex_byte (digest (bytes_of_string s)))).

End MD5.

(** Python slice [s[a:b]] of a string, for [0 <= a <= b]. *)
Definition py_slice (a b : nat) (s : string) : string :=
  substring a (b - a) s.

(** [_generate_uuid_from_string]: MD5 hex digest cut 8-4-4-4-12. *)
Definition _generate_uuid_from_string (input_str : string) : string :=
  let hex_dig := MD5.hexdigest input_str in
  py_slice 0 8 hex_dig ++ "-" ++ py_slice 8 12 hex_dig ++ "-"
    ++ py_slice 12 16 hex_dig ++ "-" ++ py_slice 16 20 hex_dig ++ "-"
    ++ py_slice 20 32 hex_dig.

(** ** Python scalars *)

Definition Exn := string.

(** [min(a, b)] and [max(a, b)] of Python: the first argument is kept
    unless the second is strictly smaller (larger). *)
Definition py_min (a b : float) : float := if (b <? a)%float then b else a.
Definition py_max (a b : float) : float := if (a <? b)%float then b else a.

(** Conversion of an [int] to [float], rounding to nearest even. *)
Definition float_of_int (n : Z) : float :=
  SF2Prim (binary_normalize prec emax n 0 false).

(** [str(n)] for an [int]. *)
Definition str_of_int (n : Z) : string :=
  DecimalString.NilZero.string_of_int (Z.to_int n).

(** An [int] enters arithmetic with a [float] through its nearest binary64
    number; from 2^1024 - 2^970 on that number is out of range and the
    conversion raises [OverflowError]. *)
Definition float_overflow_bound : Z := 2 ^ 1024 - 2 ^ 970.

(** [n / d] for an [int] [n] and a [float] [d] other than zero. *)
Definition int_div_float (n : Z) (d : float) : Exn + float :=
  if float_overflow_bound <=? Z.abs n
  then inl "int too large to convert to float"
  else inr (float_of_int n / d)%float.

(** A Python value that is a [str] or [None]. *)
Definition PyStr : Type := option string.

Definition py_str (s : string) : PyStr := Some s.
Coercion py_str : string >-> PyStr.

(** [a == s] for such a value and a [str]. *)
Definition py_str_eqb (a : PyStr) (s : string) : bool :=
  match a with
  | Some t => (t =? s)%string
  | None => false
  end.

(** ** numpy arrays of rank one *)

Definition vec := list float.

Definition np_scale (c : float) (v : vec) : vec :=
  map (fun x => (c * x)%float) v.

Definition np_div (v : vec) (c : float) : vec :=
  map (fun x => (x / c)%float) v.

Fixpoint zip_add (a b : vec) : vec :=
  match a, b with
  | x :: a', y :: b' => (x + y)%float :: zip_add a' b'
  | _, _ => []
  end.

(** [a + b] with numpy's broadcasting: equal lengths, or one operand of
    length one; anything else raises [ValueError]. *)
Definition np_add (a b : vec) : Exn + vec :=
  if (length a =? length b)%nat then inr (zip_add a b)
  else match a, b with
       | [x], _ => inr (map (fun y => (x + y)%float) b)
       | _, [y] => inr (map (fun x => (x + y)%float) a)
       | _, _ => inl "operands could not be broadcast together"
       end.

Definition dot_seq (a b : vec) : float :=
  fold_left (fun acc xy => (acc + fst xy * snd xy)%float) (combine a b) 0%float.

(** [np.dot(a, b)]: the lengths must agree. *)
Definition np_dot (a b : vec) : Exn + float :=
  if (length a =? length b)%nat then inr (dot_seq a b)
  else inl "shapes not aligned".

(** [np.linalg.norm(v)] is [sqrt(v.dot(v))]. *)
Definition np_linalg_norm (v : vec) : float := PrimFloat.sqrt (dot_seq v v).

(** [np.sum(np.abs(v))] *)
Definition np_sum_abs (v : vec) : float :=
  fold_left (fun acc x => (acc + PrimFloat.abs x)%float) v 0%float.

Definition np_sum (v : vec) : float :=
  fold_left (fun acc x => (acc + x)%float) v 0%float.

(** [np.clip(x, lo, hi)]; a NaN passes through. *)
Definition np_clip (x lo hi : float) : float :=
  if (x <? lo)%float then lo else if (hi <? x)%float then hi else x.

(** [np.count_nonzero(v)] *)
Definition np_count_nonzero (v : vec) : Z :=
  Z.of_nat (length (List.filter (fun x => negb (x =? 0)%float) v)).

Definition np_min (v : vec) : float :=
  match v with
  | [] => nan
  | x :: t => fold_left (fun m y => if (y <? m)%float then y else m) t x
  end.

Definition np_max (v : vec) : float :=
  match v with
  | [] => nan
  | x :: t => fold_left (fun m y => if (m <? y)%float then y else m) t x
  end.

Definition np_mean (v : vec) : float :=
  (np_sum v / float_of_int (Z.of_nat (length v)))%float.

Definition np_std (v : vec) : float :=
  let mu := np_mean v in
  PrimFloat.sqrt
    (np_mean (map (fun x => (PrimFloat.abs (x - mu) * PrimFloat.abs (x - mu))%float) v)).

(** [np.float32(x)]: the nearest binary32 number (ties to even, overflow to
    an infinity), kept as the binary64 number of the same value. *)
Definition np_float32 (x : float) : float :=
  match Prim2SF x with
  | S754_finite s m e => SF2Prim (binary_round 24 128 s m e)
  | _ => x
  end.

(** [np.array(data, dtype=np.float32)], as to the values it holds. *)
Definition np_array_float32 (data : vec) : vec := map np_float32 data.

(** [_normalize_vector] *)
Definition _normalize_vector (vector : vec) : vec :=
  let norm := np_linalg_norm vector in
  if (norm =? 0)%float then vector else np_div vector norm.

(** [_calculate_cosine_similarity].  The second argument is [None] when the
    caller passes Python's [None] (a profile without baseline): the norm
    then raises, and as for a shape mismatch the handler returns 0.0. *)
Definition _calculate_cosine_similarity (vector1 : vec) (vector2 : option vec)
  : float :=
  match vector2 with
  | None => 0%float
  | Some vector2 =>
      let v1_norm := _normalize_vector vector1 in
      let v2_norm := _normalize_vector vector2 in
      match np_dot v1_norm v2_norm with
      | inr similarity => np_clip similarity (-1)%float 1%float
      | inl _ => 0%float
      end
  end.

(** ** Data model *)

Inductive VectorType := SESSION | CUMULATIVE | BASELINE.

Definition VectorType_value (t : VectorType) : string :=
  match t with
  | SESSION => "session"
  | CUMULATIVE => "cumulative"
  | BASELINE => "baseline"
  end.

(** One entry of [similar_vectors]. *)
Record SimilarVector := mk_similar {
  sv_similarity : float;
  sv_index : Z;
  sv_type : string
}.

(** The dictionary built by [_calculate_vector_stats]. *)
Record VectorStats := mk_stats {
  st_length : Z;
  st_non_zero_count : Z;
  st_zero_count : Z;
  st_non_zero_percentage : float;
  st_mean : float;
  st_std : float;
  st_min : float;
  st_max : float;
  st_is_meaningful : bool
}.

Record VectorAnalysisResult := mk_result {
  similarity_score : float;
  confidence : float;
  decision : string;
  risk_level : string;
  risk_factors : list string;
  similar_vectors : list SimilarVector;
  vector_id : option string;
  session_vector : option vec;
  vector_stats : option VectorStats
}.

Record UserVectorProfile := mk_profile {
  user_id : string;
  cumulative_vector : vec;
  baseline_vector : option vec;
  session_vectors : list vec;
  vector_count : Z;
  last_updated : Z;
  learning_phase : PyStr
}.

(** [similarity_thresholds] *)
Definition threshold_learning : float := 0.3%float.
Definition threshold_gradual_risk : float := 0.6%float.
Definition threshold_full_auth : float := 0.8%float.

(** [_calculate_vector_stats].  On an empty array the statistics raise;
    which of them does (the division by the length, or the minimum of no
    value) and with what text depends on the version of numpy, so the text
    is the argument [empty_array_error]. *)
Definition _calculate_vector_stats (empty_array_error : Exn) (vector : vec)
  : Exn + VectorStats :=
  let n := Z.of_nat (length vector) in
  let non_zero_count := np_count_nonzero vector in
  let zero_count := n - non_zero_count in
  if n =? 0 then inl empty_array_error
  else inr {|
    st_length := n;
    st_non_zero_count := non_zero_count;
    st_zero_count := zero_count;
    st_non_zero_percentage :=
      (float_of_int non_zero_count / float_of_int n * 100)%float;
    st_mean := np_mean vector;
    st_std := np_std vector;
    st_min := np_min vector;
    st_max := np_max vector;
    st_is_meaningful :=
      (float_of_int n * 0.1 <? float_of_int non_zero_count)%float
  |}.

(** The dictionary returned by [get_user_vector_statistics]. *)
Record UserStatistics := mk_user_statistics {
  us_user_id : string;
  us_vector_count : Z;
  us_has_baseline : bool;
  us_last_updated : Z;
  us_learning_phase : PyStr;
  us_cumulative_vector_norm : float
}.

(** The dictionary returned by [get_layer_statistics]. *)
Record LayerStatistics := mk_layer_statistics {
  ls_session_vectors : Z;
  ls_cumulative_vectors : Z;
  ls_baseline_vectors : Z;
  ls_cached_user_profiles : Z;
  ls_vector_dimension : nat;
  ls_similarity_thresholds : float * float * float
}.

(** ** The FAISS flat indices *)

Inductive Metric := MetricL2 | MetricIP.

Record FaissIndex := mk_index {
  metric : Metric;
  dim : nat;
  stored : list vec
}.

Definition ntotal (ix : FaissIndex) : Z := Z.of_nat (length (stored ix)).

(** [index.add(v.reshape(1, -1))]: the wrapper asserts the dimension (an
    [AssertionError] without message). *)
Definition faiss_add (ix : FaissIndex) (v : vec) : Exn + FaissIndex :=
  if (length v =? dim ix)%nat
  then inr (mk_index (metric ix) (dim ix) (stored ix ++ [v]))
  else inl "".

Definition faiss_distance (m : Metric) (q v : vec) : float :=
  match m with
  | MetricIP => dot_seq q v
  | MetricL2 =>
      fold_left (fun acc xy =>
                   (acc + (fst xy - snd xy) * (fst xy - snd xy))%float)
                (combine q v) 0%float
  end.

(** [goes_before m x y]: a hit of distance [x] is ranked strictly before
    one of distance [y]. *)
Definition goes_before (m : Metric) (x y : float) : bool :=
  match m with
  | MetricIP => (y <? x)%float
  | MetricL2 => (x <? y)%float
  end.

Fixpoint insert_hit (m : Metric) (h : float * Z) (l : list (float * Z))
  : list (float * Z) :=
  match l with
  | [] => [h]
  | h' :: t =>
      if goes_before m (fst h) (fst h') then h :: l
      else h' :: insert_hit m h t
  end.

Fixpoint rank_hits (m : Metric) (q : vec) (vs : list vec) (i : Z)
  (acc : list (float * Z)) : list (float * Z) :=
  match vs with
  | [] => acc
  | v :: vs' =>
      rank_hits m q vs' (i + 1) (insert_hit m (faiss_distance m q v, i) acc)
  end.

(** [index.search(q, k)]: the [k] best hits as (distance, label), best
    first, ties in insertion order. *)
Definition faiss_search (ix : FaissIndex) (q : vec) (k : Z)
  : Exn + list (float * Z) :=
  if (length q =? dim ix)%nat
  then inr (firstn (Z.to_nat k) (rank_hits (metric ix) q (stored ix) 0 []))
  else inl "".

(** ** The database client, seen from the engine *)

(** The dictionary sent to table [enhanced_behavioral_vectors]; of the
    metadata only [vector_count] is kept. *)
Record VectorRecord := mk_record {
  rec_user_id : string;
  rec_session_id : string;
  rec_vector_data : vec;
  rec_vector_type : VectorType;
  rec_confidence_score : float;
  rec_feature_source : string;
  rec_vector_count : option Z
}.

Inductive DbCall :=
| InsertVector (r : VectorRecord)
| InsertUserProfile (id original_user_id : string)
| SelectLatestVector (user_uuid : string) (t : VectorType)
| SelectSessionVector (session_id : string)
| GetUserProfile (user_uuid : string)
| SelectUserProfile (user_id : string)
| UpdateUserPhase (user_id new_phase : string).

(** A column of a row: the key is missing from the dictionary, or it holds
    NULL (Python's [None]), or it holds a value. *)
Inductive Column (A : Type) :=
| Absent
| Null
| Value (a : A).
Arguments Absent {A}.
Arguments Null {A}.
Arguments Value {A} a.

(** [row.get(key, default)] on a column of texts: the default stands in for
    a missing key only. *)
Definition dict_get (c : Column string) (default : string) : PyStr :=
  match c with
  | Absent => Some default
  | Null => None
  | Value s => Some s
  end.

(** A row of [result.data], with the columns the engine reads. *)
Record DbRow := mk_row {
  row_id : string;
  row_vector_data : vec;
  row_vector_count : option Z;
  row_created_at : Z;
  row_current_phase : Column string
}.

Inductive DbResponse :=
| DbRaise (msg : string)
| DbData (rows : list DbRow).

Record LogEvent := mk_event { event_type : string }.

(** What the engine does not own: the reply of the database to its n-th
    call, the clock, the two entry points of the behavioural processor
    (events to feature vector), and the text with which the installed
    numpy fails on the statistics of an empty array. *)
Record Env := mk_env {
  db_reply : nat -> DbResponse;
  utcnow : Z;
  process_mobile_behavioral_data_vector : list LogEvent -> Exn + vec;
  process_behavioral_logs_vector : list LogEvent -> Exn + vec;
  numpy_empty_array_error : Exn
}.

(** ** The engine object *)

Record World := mk_world {
  vector_dimension : nat;
  session_index : FaissIndex;
  cumulative_index : FaissIndex;
  baseline_index : FaissIndex;
  user_profiles : gmap string UserVectorProfile;
  db_log : list DbCall
}.

(** [EnhancedFAISSEngine(vector_dimension)] before [initialize()]. *)
Definition new_engine (vector_dimension : nat) : World :=
  mk_world vector_dimension
           (mk_index MetricL2 vector_dimension [])
           (mk_index MetricL2 vector_dimension [])
           (mk_index MetricL2 vector_dimension [])
           ∅ [].

Definition M (A : Type) : Type := World -> (Exn + A) * World.

Definition ret {A} (a : A) : M A := fun w => (inr a, w).

Definition bind {A B} (m : M A) (f : A -> M B) : M B :=
  fun w => match m w with
           | (inr a, w') => f a w'
           | (inl e, w') => (inl e, w')
           end.

Definition raise {A} (e : Exn) : M A := fun w => (inl e, w).

(** [try: m except Exception as e: h e] *)
Definition try_except {A} (m : M A) (h : Exn -> M A) : M A :=
  fun w => match m w with
           | (inl e, w') => h e w'
           | r => r
           end.

Definition lift {A} (r : Exn + A) : M A := fun w => (r, w).

Definition get_world : M World := fun w => (inr w, w).

Notation "x <- m ;; k" := (bind m (fun x => k))
  (at level 62, m at next level, right associativity).
Notation "m ;;; k" := (bind m (fun _ => k))
  (at level 62, right associativity).

Definition set_profile (uid : string) (p : UserVectorProfile) : M unit :=
  fun w => (inr tt,
            mk_world (vector_dimension w) (session_index w)
                     (cumulative_index w) (baseline_index w)
                     (<[uid := p]> (user_profiles w)) (db_log w)).

(** The profile object passed around with [uid] is the one the cache holds
    under [uid]; reading it again sees the writes made meanwhile. *)
Definition deref (uid : string) (p : UserVectorProfile) : M UserVectorProfile :=
  fun w => (inr (default p (user_profiles w !! uid)), w).

(** In-place writes to the fields of a profile object. *)
Definition with_baseline (p : UserVectorProfile) (b : option vec)
  : UserVectorProfile :=
  mk_profile (user_id p) (cumulative_vector p) b (session_vectors p)
             (vector_count p) (last_updated p) (learning_phase p).

Definition with_cumulative (p : UserVectorProfile) (c : vec) (n : Z) (t : Z)
  : UserVectorProfile :=
  mk_profile (user_id p) c (baseline_vector p) (session_vectors p) n t
             (learning_phase p).

Definition with_phase (p : UserVectorProfile) (ph : string)
  : UserVectorProfile :=
  mk_profile (user_id p) (cumulative_vector p) (baseline_vector p)
             (session_vectors p) (vector_count p) (last_updated p) ph.

Definition with_details (r : VectorAnalysisResult) (vid : option string)
  (sv : option vec) (st : option VectorStats) : VectorAnalysisResult :=
  mk_result (similarity_score r) (confidence r) (decision r) (risk_level r)
            (risk_factors r) (similar_vectors r) vid sv st.

(** [sub in s] for strings. *)
Fixpoint str_contains (sub s : string) : bool :=
  if String.prefix sub s then true
  else match s with
       | EmptyString => false
       | String _ s' => str_contains sub s'
       end.

Definition session_index_add (v : vec) : M unit :=
  fun w => match faiss_add (session_index w) v with
           | inr ix => (inr tt,
                        mk_world (vector_dimension w) ix (cumulative_index w)
                                 (baseline_index w) (user_profiles w) (db_log w))
           | inl e => (inl e, w)
           end.

Definition cumulative_index_add (v : vec) : M unit :=
  fun w => match faiss_add (cumulative_index w) v with
           | inr ix => (inr tt,
                        mk_world (vector_dimension w) (session_index w) ix
                                 (baseline_index w) (user_profiles w) (db_log w))
           | inl e => (inl e, w)
           end.

Definition baseline_index_add (v : vec) : M unit :=
  fun w => match faiss_add (baseline_index w) v with
           | inr ix => (inr tt,
                        mk_world (vector_dimension w) (session_index w)
                                 (cumulative_index w) ix (user_profiles w)
                                 (db_log w))
           | inl e => (inl e, w)
           end.

Section Engine.

Variable env : Env.

(** One call of the database client: logged, then answered. *)
Definition db_execute (c : DbCall) : M (list DbRow) :=
  fun w =>
    let w' := mk_world (vector_dimension w) (session_index w)
                       (cumulative_index w) (baseline_index w)
                       (user_profiles w) (db_log w ++ [c]) in
    match db_reply env (length (db_log w)) with
    | DbRaise msg => (inl msg, w')
    | DbData rows => (inr rows, w')
    end.

(** The dictionary [vector_data] of [_create_baseline_vector]. *)
Definition baseline_record (user_id : string) (baseline_vector : vec)
  : VectorRecord :=
  mk_record user_id ("baseline_" ++ str_of_int (utcnow env))
            baseline_vector BASELINE 0.95%float "baseline_creation" None.

(** [_create_baseline_vector] *)
Definition _create_baseline_vector (user_id : string)
  (user_profile : UserVectorProfile) : M unit :=
  try_except
    (if vector_count user_profile <? 10 then ret tt
     else
       let baseline_vector := cumulative_vector user_profile in
       let vector_data := baseline_record user_id baseline_vector in
       _ <- db_execute (InsertVector vector_data) ;;
       cur <- deref user_id user_profile ;;
       set_profile user_id (with_baseline cur (Some baseline_vector)) ;;;
       baseline_index_add baseline_vector)
    (fun _ => ret tt).

(** [_find_similar_vectors] *)
Definition _find_similar_vectors (user_id : string) (query_vector : vec)
  (k : Z) : M (list SimilarVector) :=
  try_except
    (w <- get_world ;;
     if 0 <? ntotal (cumulative_index w) then
       hits <- lift (faiss_search (cumulative_index w)
                       (_normalize_vector query_vector)
                       (Z.min k (ntotal (cumulative_index w)))) ;;
       ret (firstn (Z.to_nat k)
              (map (fun h => mk_similar (fst h) (snd h) "cumulative")
                   (List.filter (fun h => negb (snd h =? -1)) hits)))
     else ret [])
    (fun _ => ret []).

(** [_analyze_learning_phase] *)
Definition _analyze_learning_phase (user_id : string) (session_vector : vec)
  (user_profile : UserVectorProfile) : M VectorAnalysisResult :=
  if 0 <? vector_count user_profile then
    let similarity_score :=
      _calculate_cosine_similarity session_vector
        (Some (cumulative_vector user_profile)) in
    let risk_factors :=
      [ "Learning phase - collecting behavioral data";
        "Compared with " ++ str_of_int (vector_count user_profile)
          ++ " previous sessions" ] in
    similar_vectors <- _find_similar_vectors user_id session_vector 5 ;;
    quotient <- lift (int_div_float (vector_count user_profile) 5%float) ;;
    let confidence := py_min 0.8%float quotient in
    ret (mk_result similarity_score confidence "learn" "low" risk_factors
                   (firstn 3 similar_vectors) None None None)
  else
    ret (mk_result 0%float 0.2%float "learn" "low"
                   ["First session - no baseline for comparison"] []
                   None None None).

(** [_analyze_gradual_phase] *)
Definition _analyze_gradual_phase (user_id : string) (session_vector : vec)
  (user_profile : UserVectorProfile) : M VectorAnalysisResult :=
  if vector_count user_profile <? 3 then
    ret (mk_result 0.8%float 0.6%float "learn" "low"
                   ["Insufficient data - continue learning"] []
                   None None None)
  else
    let similarity :=
      _calculate_cosine_similarity session_vector
        (Some (cumulative_vector user_profile)) in
    let threshold := threshold_gradual_risk in
    let '(decision, risk_level, risk_factors) :=
      if (threshold <=? similarity)%float then
        ("allow", "low", ["Vector matches user profile"])
      else if (threshold * 0.7 <=? similarity)%float then
        ("challenge", "medium", ["Moderate deviation from profile"])
      else
        ("block", "high", ["Significant deviation from profile"]) in
    quotient <- lift (int_div_float (vector_count user_profile) 10%float) ;;
    ret (mk_result similarity (py_min 0.8%float quotient)
                   decision risk_level risk_factors [] None None None).

(** [_analyze_full_auth_phase] *)
Definition _analyze_full_auth_phase (user_id : string) (session_vector : vec)
  (user_profile : UserVectorProfile) : M VectorAnalysisResult :=
  (match baseline_vector user_profile with
   | None => _create_baseline_vector user_id user_profile
   | Some _ => ret tt
   end) ;;;
  user_profile <- deref user_id user_profile ;;
  let baseline_similarity :=
    _calculate_cosine_similarity session_vector
      (baseline_vector user_profile) in
  let cumulative_similarity :=
    _calculate_cosine_similarity session_vector
      (Some (cumulative_vector user_profile)) in
  let similarity := py_max baseline_similarity cumulative_similarity in
  let threshold := threshold_full_auth in
  similar_vectors <- _find_similar_vectors user_id session_vector 5 ;;
  let '(decision, risk_level, risk_factors) :=
    if (threshold <=? similarity)%float then
      ("allow", "low", ["Strong match with user profile"])
    else if (threshold * 0.8 <=? similarity)%float then
      ("challenge", "medium", ["Moderate similarity to profile"])
    else
      ("block", "high", ["Low similarity to established profile"]) in
  ret (mk_result similarity 0.9%float decision risk_level risk_factors
                 similar_vectors None None None).

(** [_store_session_vector]; the feature statistics of the metadata are
    not part of the record kept here. *)
Definition _store_session_vector (user_id session_id : string) (vector : vec)
  : M (option string) :=
  try_except
    (let vector_data :=
       mk_record user_id session_id vector SESSION 1%float
                 "mobile_behavioral_data" None in
     rows <- db_execute (InsertVector vector_data) ;;
     let vector_id := match rows with
                      | r :: _ => Some (row_id r)
                      | [] => None
                      end in
     session_index_add vector ;;;
     ret vector_id)
    (fun _ => ret None).

(** [_store_session_vector_mobile] *)
Definition _store_session_vector_mobile (user_id session_id : string)
  (vector : vec) : M (option string) :=
  try_except
    (let user_uuid := _generate_uuid_from_string user_id in
     let vector_data :=
       mk_record user_uuid session_id vector SESSION 0.8%float
                 "mobile_behavioral_data" None in
     try_except
       (rows <- db_execute (InsertVector vector_data) ;;
        match rows with
        | r :: _ => session_index_add vector ;;; ret (Some (row_id r))
        | [] => ret None
        end)
       (fun db_error =>
          if str_contains "23503" db_error then
            try_except
              (user_rows <- db_execute (InsertUserProfile user_uuid user_id) ;;
               match user_rows with
               | _ :: _ =>
                   rows <- db_execute (InsertVector vector_data) ;;
                   match rows with
                   | r :: _ =>
                       session_index_add vector ;;; ret (Some (row_id r))
                   | [] => ret None
                   end
               | [] => ret None
               end)
              (fun _ =>
                 session_index_add vector ;;;
                 ret (Some ("local_" ++ user_id ++ "_" ++ session_id ++ "_"
                              ++ str_of_int (utcnow env))))
          else raise db_error))
    (fun _ =>
       try_except
         (session_index_add vector ;;;
          ret (Some ("emergency_" ++ user_id ++ "_"
                       ++ str_of_int (utcnow env))))
         (fun _ => ret None)).

(** [_get_or_create_user_profile] *)
Definition _get_or_create_user_profile (user_id : string)
  : M UserVectorProfile :=
  w <- get_world ;;
  match user_profiles w !! user_id with
  | Some profile => ret profile
  | None =>
      try_except
        (let user_uuid := _generate_uuid_from_string user_id in
         cumulative_rows <- db_execute (SelectLatestVector user_uuid CUMULATIVE) ;;
         let '(cumulative_vector, vector_count, last_updated) :=
           match cumulative_rows with
           | r :: _ => (row_vector_data r, default 1 (row_vector_count r),
                        row_created_at r)
           | [] => (repeat 0%float (vector_dimension w), 0, utcnow env)
           end in
         baseline_rows <- db_execute (SelectLatestVector user_uuid BASELINE) ;;
         let baseline_vector :=
           match baseline_rows with
           | r :: _ => Some (row_vector_data r)
           | [] => None
           end in
         profile_rows <- db_execute (GetUserProfile user_uuid) ;;
         let learning_phase :=
           match profile_rows with
           | r :: _ => dict_get (row_current_phase r) "learning"
           | [] => py_str "learning"
           end in
         let profile :=
           mk_profile user_id cumulative_vector baseline_vector []
                      vector_count last_updated learning_phase in
         set_profile user_id profile ;;; ret profile)
        (fun _ =>
           let profile :=
             mk_profile user_id (repeat 0%float (vector_dimension w)) None []
                        0 (utcnow env) "learning" in
           set_profile user_id profile ;;; ret profile)
  end.

Definition alpha : float := 0.1%float.

(** The exponential moving average of [_update_cumulative_vector]. *)
Definition blend (user_profile : UserVectorProfile) (session_vector : vec)
  : Exn + vec :=
  if vector_count user_profile =? 0 then inr session_vector
  else np_add (np_scale (1 - alpha)%float (cumulative_vector user_profile))
              (np_scale alpha session_vector).

(** [_update_cumulative_vector] *)
Definition _update_cumulative_vector (user_id : string) (session_vector : vec)
  (decision : string) : M unit :=
  try_except
    (if (decision =? "block")%string then ret tt
     else
       w <- get_world ;;
       match user_profiles w !! user_id with
       | None => ret tt
       | Some user_profile =>
           let user_uuid := _generate_uuid_from_string user_id in
           new_cumulative <- lift (blend user_profile session_vector) ;;
           let new_cumulative := _normalize_vector new_cumulative in
           let count := vector_count user_profile + 1 in
           set_profile user_id
             (with_cumulative user_profile new_cumulative count (utcnow env)) ;;;
           let vector_data :=
             mk_record user_uuid ("cumulative_" ++ str_of_int count)
                       new_cumulative CUMULATIVE 0.9%float
                       "cumulative_learning" (Some count) in
           try_except
             (rows <- db_execute (InsertVector vector_data) ;;
              match rows with
              | _ :: _ => cumulative_index_add new_cumulative
              | [] => ret tt
              end)
             (fun _ => cumulative_index_add new_cumulative)
       end)
    (fun _ =>
       try_except
         (w <- get_world ;;
          match user_profiles w !! user_id with
          | Some user_profile =>
              if negb (decision =? "block")%string then
                new_cumulative <- lift (blend user_profile session_vector) ;;
                let new_cumulative := _normalize_vector new_cumulative in
                set_profile user_id
                  (with_cumulative user_profile new_cumulative
                     (vector_count user_profile + 1)
                     (last_updated user_profile))
              else ret tt
          | None => ret tt
          end)
         (fun _ => ret tt)).

(** [_update_user_learning_phase] *)
Definition _update_user_learning_phase (user_id new_phase : string) : M unit :=
  try_except
    (_ <- db_execute (UpdateUserPhase user_id new_phase) ;;
     w <- get_world ;;
     match user_profiles w !! user_id with
     | Some p => set_profile user_id (with_phase p new_phase)
     | None => ret tt
     end)
    (fun _ => ret tt).

(** [_check_learning_phase_transition] *)
Definition _check_learning_phase_transition (user_id : string) : M unit :=
  try_except
    (w <- get_world ;;
     match user_profiles w !! user_id with
     | None => ret tt
     | Some user_profile =>
         rows <- db_execute (SelectUserProfile user_id) ;;
         match rows with
         | [] => ret tt
         | profile :: _ =>
             let current_phase :=
               dict_get (row_current_phase profile) "learning" in
             if py_str_eqb current_phase "learning"
                && (5 <=? vector_count user_profile) then
               _update_user_learning_phase user_id "gradual_risk"
             else if py_str_eqb current_phase "gradual_risk"
                     && (10 <=? vector_count user_profile) then
               _create_baseline_vector user_id user_profile ;;;
               _update_user_learning_phase user_id "full_auth"
             else ret tt
         end
     end)
    (fun _ => ret tt).

(** [end_session_update] *)
Definition end_session_update (user_id session_id : string) : M unit :=
  try_except
    (rows <- db_execute (SelectSessionVector session_id) ;;
     match rows with
     | [] => ret tt
     | r :: _ =>
         let session_vector := np_array_float32 (row_vector_data r) in
         _update_cumulative_vector user_id session_vector "allow" ;;;
         _check_learning_phase_transition user_id
     end)
    (fun _ => ret tt).

(** The phase-specific analysis both pipelines dispatch to. *)
Definition analyze (learning_phase user_id : string) (session_vector : vec)
  (user_profile : UserVectorProfile) : M VectorAnalysisResult :=
  if (learning_phase =? "learning")%string then
    _analyze_learning_phase user_id session_vector user_profile
  else if (learning_phase =? "gradual_risk")%string then
    _analyze_gradual_phase user_id session_vector user_profile
  else _analyze_full_auth_phase user_id session_vector user_profile.

(** The body of the [try] of [process_behavioral_data]. *)
Definition process_behavioral_data_body (user_id session_id : string)
  (behavioral_logs : list LogEvent) (learning_phase : string)
  : M VectorAnalysisResult :=
  session_vector <- lift (process_behavioral_logs_vector env behavioral_logs) ;;
  let session_vector := _normalize_vector session_vector in
  vector_id <- _store_session_vector user_id session_id session_vector ;;
  user_profile <- _get_or_create_user_profile user_id ;;
  result <- analyze learning_phase user_id session_vector user_profile ;;
  let result := with_details result vector_id None None in
  _update_cumulative_vector user_id session_vector (decision result) ;;;
  ret result.

(** [process_behavioral_data] *)
Definition process_behavioral_data (user_id session_id : string)
  (behavioral_logs : list LogEvent) (learning_phase : string)
  : M VectorAnalysisResult :=
  try_except
    (process_behavioral_data_body user_id session_id behavioral_logs
       learning_phase)
    (fun _ =>
       ret (mk_result 0%float 0.5%float "learn" "medium"
                      ["Processing error"] [] None None None)).

(** The body of the [try] of [process_mobile_behavioral_data]; the
    argument [logs] is [behavioral_data.get('logs', [])]. *)
Definition process_mobile_behavioral_data_body (user_id session_id : string)
  (logs : list LogEvent) (learning_phase : string)
  : M VectorAnalysisResult :=
  match logs with
  | [] =>
      ret (mk_result 0%float 0.5%float "learn" "medium"
                     ["No behavioral data provided"] [] None None None)
  | _ =>
      session_vector <-
        lift (process_mobile_behavioral_data_vector env logs) ;;
      let session_vector := _normalize_vector session_vector in
      vector_stats <-
        lift (_calculate_vector_stats (numpy_empty_array_error env)
                session_vector) ;;
      let vector_sum := np_sum_abs session_vector in
      if (vector_sum =? 0)%float then
        ret (mk_result 0%float 0.3%float "learn" "medium"
                       ["Invalid behavioral vector generated"] [] None
                       (Some session_vector) (Some vector_stats))
      else
        vector_id <-
          _store_session_vector_mobile user_id session_id session_vector ;;
        user_profile <- _get_or_create_user_profile user_id ;;
        result <- analyze learning_phase user_id session_vector user_profile ;;
        let result :=
          with_details result vector_id (Some session_vector)
                       (Some vector_stats) in
        _update_cumulative_vector user_id session_vector (decision result) ;;;
        ret result
  end.

(** [process_mobile_behavioral_data] *)
Definition process_mobile_behavioral_data (user_id session_id : string)
  (logs : list LogEvent) (learning_phase : string)
  : M VectorAnalysisResult :=
  try_except
    (process_mobile_behavioral_data_body user_id session_id logs
       learning_phase)
    (fun e =>
       ret (mk_result 0%float 0.5%float "learn" "medium"
                      ["Processing error: " ++ e] [] None None None)).

(** [get_user_vector_statistics]: the statistics, or the error dictionary
    with the text of the exception. *)
Definition get_user_vector_statistics (user_id : string)
  : M (string + UserStatistics) :=
  try_except
    (user_profile <- _get_or_create_user_profile user_id ;;
     ret (inr (mk_user_statistics user_id (vector_count user_profile)
                 (match baseline_vector user_profile with
                  | Some _ => true
                  | None => false
                  end)
                 (last_updated user_profile)
                 (learning_phase user_profile)
                 (np_linalg_norm (cumulative_vector user_profile)))))
    (fun e => ret (inl e)).

End Engine.

(** [get_layer_statistics] *)
Definition get_layer_statistics : M LayerStatistics :=
  w <- get_world ;;
  ret (mk_layer_statistics (ntotal (session_index w))
         (ntotal (cumulative_index w)) (ntotal (baseline_index w))
         (Z.of_nat (size (user_profiles w))) (vector_dimension w)
         (threshold_learning, threshold_gradual_risk, threshold_full_auth)).

(** ** The canonical 8-4-4-4-12 form *)

Definition is_hex_char (c : ascii) : bool :=
  existsb (Ascii.eqb c) (list_ascii_of_string "0123456789abcdef").

(** From position [i] on, the characters are hexadecimal digits, except at
    positions 8, 13, 18 and 23, which hold a hyphen; the text ends at 36. *)
Fixpoint canonical_from (i : nat) (l : list ascii) : bool :=
  match l with
  | [] => (i =? 36)%nat
  | c :: l' =>
      (if existsb (Nat.eqb i) [8; 13; 18; 23]%nat
       then Ascii.eqb c "-"%char else is_hex_char c)
      && canonical_from (S i) l'
  end.

Definition is_canonical_uuid (s : string) : bool :=
  canonical_from 0 (list_ascii_of_string s).

(** The text of a 128-bit identifier given by its 16 bytes. *)
Definition uuid_of_bytes (bs : list Z) : string :=
  let hex := string_of_list_ascii (concat (map MD5.hex_byte bs)) in
  py_slice 0 8 hex ++ "-" ++ py_slice 8 12 hex ++ "-"
    ++ py_slice 12 16 hex ++ "-" ++ py_slice 16 20 hex ++ "-"
    ++ py_slice 20 32 hex.

(** ** Sequences of cumulative updates, and their specification *)


(** The update as the specification words it, on the pair (cumulative
    vector, count): the session vector itself for the first session,
    otherwise (1 - 0.1) * cumulative + 0.1 * session; then normalised; the
    count goes up by one. *)
Definition spec_cumulative_step (st : vec * Z) (session : vec) : vec * Z :=
  let new :=
    if snd st =? 0 then session
    else zip_add (np_scale (1 - 0.1)%float (fst st))
                 (np_scale 0.1%float session) in
  (_normalize_vector new, snd st + 1).


(** Every vector the update touches has the dimension of the engine. *)
Definition well_dimensioned (w : World) : Prop :=
  dim (cumulative_index w) = vector_dimension w
  /\ forall u p, user_profiles w !! u = Some p ->
                 length (cumulative_vector p) = vector_dimension w.

(** A vector all of whose entries are a zero of binary64 (+0.0 or -0.0). *)
Definition all_zero (v : vec) : Prop :=
  Forall (fun x => x = 0%float \/ x = (-0)%float) v.

(** ** Small engines used in the examples *)

(** A database that accepts every call and returns no row. *)
Definition quiet_env : Env :=
  mk_env (fun _ => DbData []) 0 (fun _ => inr []) (fun _ => inr [])
    "division by zero".

(** A database that raises on every call. *)
Definition failing_env : Env :=
  mk_env (fun _ => DbRaise "connection refused") 0
         (fun _ => inr []) (fun _ => inr []) "division by zero".

(** An initialised engine of dimension [d] whose cache holds [p]. *)
Definition engine_with (d : nat) (p : UserVectorProfile) : World :=
  mk_world d (mk_index MetricIP d []) (mk_index MetricIP d [])
           (mk_index MetricIP d []) {[ user_id p := p ]} [].

(** A database that knows the user as being in the gradual phase (first
    call), refuses the baseline insert (second call) and accepts the phase
    update (third call). *)
Definition baseline_failure_env : Env :=
  mk_env (fun n => match n with
                   | O => DbData [mk_row "1" [] None 0 (Value "gradual_risk")]
                   | S O => DbRaise "insert failed"
                   | _ => DbData []
                   end)
         0 (fun _ => inr []) (fun _ => inr []) "division by zero".

(** A database that knows the user as being in the gradual phase and
    accepts every call. *)
Definition quiet_env_gradual : Env :=
  mk_env (fun n => match n with
                   | O => DbData [mk_row "1" [] None 0 (Value "gradual_risk")]
                   | _ => DbData []
                   end)
         0 (fun _ => inr []) (fun _ => inr []) "division by zero".

(** A processor that extracts the zero vector of dimension 4. *)
Definition zero_vector_env : Env :=
  mk_env (fun _ => DbData []) 0
         (fun _ => inr [0; 0; 0; 0]%float) (fun _ => inr [0; 0; 0; 0]%float)
           "division by zero".

(** A processor that raises. *)
Definition broken_processor_env : Env :=
  mk_env (fun _ => DbData []) 0
         (fun _ => inl "malformed event") (fun _ => inl "malformed event")
           "division by zero".

(** A processor that extracts the vector (3, 4), with a database that
    accepts every call and returns no row. *)
Definition vector_34_env : Env :=
  mk_env (fun _ => DbData []) 0
         (fun _ => inr [3; 4]%float) (fun _ => inr [3; 4]%float)
         "division by zero".

(** The four values a decision takes. *)
Definition decisions : list string := ["allow"; "challenge"; "block"; "learn"].


(** The profile of a user the engine knows nothing of. *)
Definition default_profile (env : Env) (uid : string) (w : World)
  : UserVectorProfile :=
  mk_profile uid (repeat 0%float (vector_dimension w)) None [] 0
             (utcnow env) "learning".

(** The engine after the request for the session vector. *)
Definition after_select (sid : string) (w : World) : World :=
  mk_world (vector_dimension w) (session_index w) (cumulative_index w)
           (baseline_index w) (user_profiles w)
           (db_log w ++ [SelectSessionVector sid]).

(** ** Start-up and the learning status *)

(** [index.add(np.array([v['vector_data'] for v in rows]))]: the rows are
    added together; rows that do not all have the dimension of the index
    (a ragged array, or one of another width) raise before anything is
    added. *)
Definition faiss_add_all (ix : FaissIndex) (vs : list vec)
  : Exn + FaissIndex :=
  if forallb (fun v => (length v =? dim ix)%nat) vs
  then inr (mk_index (metric ix) (dim ix) (stored ix ++ vs))
  else inl "".

(** One of the three blocks of [_load_existing_vectors]: the reply to the
    request for a vector type, added to its index when it has rows. *)
Definition load_table (reply : DbResponse) (ix : FaissIndex)
  : Exn + FaissIndex :=
  match reply with
  | DbRaise msg => inl msg
  | DbData [] => inr ix
  | DbData rows => faiss_add_all ix (map row_vector_data rows)
  end.

(** [_load_existing_vectors].  Its three requests (all vectors of a type)
    read the database without writing to the engine; their replies are the
    arguments.  The first exception ends the loading and is swallowed. *)
Definition _load_existing_vectors
  (session_vectors cumulative_vectors baseline_vectors : DbResponse)
  (w : World) : World :=
  match load_table session_vectors (session_index w) with
  | inl _ => w
  | inr s =>
      let w1 := mk_world (vector_dimension w) s (cumulative_index w)
                         (baseline_index w) (user_profiles w) (db_log w) in
      match load_table cumulative_vectors (cumulative_index w1) with
      | inl _ => w1
      | inr c =>
          let w2 := mk_world (vector_dimension w1) (session_index w1) c
                             (baseline_index w1) (user_profiles w1)
                             (db_log w1) in
          match load_table baseline_vectors (baseline_index w2) with
          | inl _ => w2
          | inr b =>
              mk_world (vector_dimension w2) (session_index w2)
                       (cumulative_index w2) b (user_profiles w2) (db_log w2)
          end
      end
  end.

(** [initialize]: fresh inner-product indices, then the stored vectors. *)
Definition initialize
  (session_vectors cumulative_vectors baseline_vectors : DbResponse)
  (w : World) : World :=
  _load_existing_vectors session_vectors cumulative_vectors baseline_vectors
    (mk_world (vector_dimension w)
       (mk_index MetricIP (vector_dimension w) [])
       (mk_index MetricIP (vector_dimension w) [])
       (mk_index MetricIP (vector_dimension w) [])
       (user_profiles w) (db_log w)).

(** A reply that loads: it does not raise and all its rows have dimension
    [d]. *)
Definition loads (d : nat) (reply : DbResponse) : bool :=
  match reply with
  | DbRaise _ => false
  | DbData rows => forallb (fun r => (length (row_vector_data r) =? d)%nat) rows
  end.

Definition reply_vectors (reply : DbResponse) : list vec :=
  match reply with
  | DbRaise _ => []
  | DbData rows => map row_vector_data rows
  end.

(** The dictionary returned by [get_user_learning_status]; the user who is
    not cached gets no [last_updated]. *)
Record LearningStatus := mk_learning_status {
  lst_learning_phase : PyStr;
  lst_vector_count : Z;
  lst_sessions_needed : Z;
  lst_baseline_created : bool;
  lst_last_updated : option Z
}.

(** [get_user_learning_status]: the status, or the error dictionary with
    the text of the exception.  Its one request (the ids of the baseline
    records kept under the user id as given) reads the database without
    writing to the engine; its reply is the argument [baseline_result]. *)
Definition get_user_learning_status (baseline_result : DbResponse)
  (user_id : string) (w : World) : string + LearningStatus :=
  match user_profiles w !! user_id with
  | None => inr (mk_learning_status "learning" 0 5 false None)
  | Some user_profile =>
      match baseline_result with
      | DbRaise msg => inl msg
      | DbData rows =>
          let baseline_exists := (0 <? Z.of_nat (length rows)) in
          let sessions_needed :=
            if py_str_eqb (learning_phase user_profile) "learning"
            then Z.max 0 (5 - vector_count user_profile)
            else if py_str_eqb (learning_phase user_profile) "gradual_risk"
            then Z.max 0 (10 - vector_count user_profile)
            else 0 in
          inr (mk_learning_status (learning_phase user_profile)
                 (vector_count user_profile) sessions_needed baseline_exists
                 (Some (last_updated user_profile)))
      end
  end.

(** What the result of a pipeline and the engine it leaves have in
    common, whether the run ended with an analysis or with the fallback
    for an exception. *)
Definition run_effect (phase uid : string) (w : World)
  (r : VectorAnalysisResult) (w' : World) : Prop :=
  In (decision r) decisions
  /\ (phase = "learning" -> decision r = "learn")
  /\ vector_dimension w' = vector_dimension w
  /\ (forall u, u <> uid -> user_profiles w' !! u = user_profiles w !! u)
  /\ (forall q, user_profiles w !! uid = Some q ->
        exists q',
          user_profiles w' !! uid = Some q'
          /\ learning_phase q' = learning_phase q
          /\ vector_count q <= vector_count q' <= vector_count q + 2
          /\ (decision r = "block" ->
              cumulative_vector q' = cumulative_vector q
              /\ vector_count q' = vector_count q))
  /\ (ntotal (cumulative_index w) <= ntotal (cumulative_index w')
      <= ntotal (cumulative_index w) + 1).

(** ** Running the monad in proofs *)

Ltac unfold_monad :=
  unfold try_except, bind, ret, raise, lift, get_world, set_profile, deref,
    db_execute, session_index_add, cumulative_index_add, baseline_index_add.

Ltac reduce_world :=
  cbn [fst snd vector_dimension session_index cumulative_index baseline_index
       user_profiles db_log].

(** One case split on what the outside world or a test of the code decides. *)
Ltac split_case :=
  reduce_world;
  match goal with
  | |- context [match db_reply ?e ?n with _ => _ end] =>
      let R := fresh "Hreply" in
      destruct (db_reply e n) as [?|[|? ?]] eqn:R
  | |- context [match faiss_add ?ix ?v with _ => _ end] =>
      let A := fresh "Hadd" in destruct (faiss_add ix v) eqn:A
  | |- context [if str_contains ?a ?b then _ else _] =>
      let C := fresh "Hfk" in destruct (str_contains a b) eqn:C
  end.

Ltac split_if :=
  match goal with
  | |- context [if ?b then _ else _] =>
      let C := fresh "Hif" in destruct b eqn:C
  end.

(** Positions in the log of database calls. *)
Ltac count_calls :=
  rewrite ?length_app; cbn [length]; rewrite ?Nat.add_1_r.

(** * Properties *)

(** ** Order facts on binary64 numbers *)

Lemma SFcompare_antisym (x y : spec_float) :
  SFcompare y x = option_map CompOpp (SFcompare x y).
Proof.
  destruct x as [sx| sx | |sx mx ex], y as [sy|sy| |sy my ey]; simpl;
    try reflexivity;
    try (destruct sx; reflexivity); try (destruct sy; reflexivity);
    try (destruct sx, sy; reflexivity).
  rewrite (Z.compare_antisym ey ex).
  destruct sx, sy; simpl; try reflexivity;
    destruct (ey ?= ex)%Z eqn:E; simpl; try reflexivity;
    rewrite <- (Pos.compare_cont_antisym _ _ Eq); simpl;
    try rewrite CompOpp_involutive; reflexivity.
Qed.

Lemma ltb_leb_false (x y : float) :
  (x <? y)%float = true -> (y <=? x)%float = false.
Proof.
  rewrite ltb_spec, leb_spec. unfold SFltb, SFleb.
  rewrite (SFcompare_antisym (Prim2SF x) (Prim2SF y)).
  destruct (SFcompare (Prim2SF x) (Prim2SF y)) as [[]|]; simpl; congruence.
Qed.

(** The division of a count by a float: in range, and out of it. *)
Lemma int_div_float_in_range (n : Z) (d : float) :
  0 <= n < float_overflow_bound ->
  int_div_float n d = inr (float_of_int n / d)%float.
Proof.
  intros [H0 H1]. unfold int_div_float. rewrite Z.abs_eq by exact H0.
  destruct (Z.leb_spec float_overflow_bound n) as [H|H]; [|reflexivity].
  exfalso. apply (Z.lt_irrefl n). eapply Z.lt_le_trans; eassumption.
Qed.

Lemma int_div_float_overflow (n : Z) (d : float) :
  0 <= n -> float_overflow_bound <= n ->
  int_div_float n d = inl "int too large to convert to float".
Proof.
  intros H0 H1. unfold int_div_float. rewrite Z.abs_eq by exact H0.
  destruct (Z.leb_spec float_overflow_bound n) as [H|H]; [reflexivity|].
  exfalso. apply (Z.lt_irrefl n). eapply Z.lt_le_trans; eassumption.
Qed.

(** The lower thresholds, as the multiplications of the source round. *)
Lemma gradual_lower_threshold :
  (threshold_gradual_risk * 0.7)%float = 0.42%float.
Proof. reflexivity. Qed.

Lemma full_auth_lower_threshold :
  (threshold_full_auth * 0.8)%float = 0.64000000000000012%float.
Proof. reflexivity. Qed.

Lemma full_auth_lower_threshold_above_064 :
  (0.64 <? threshold_full_auth * 0.8)%float = true.
Proof. reflexivity. Qed.

(** ** Cumulative update: frame properties *)

Section Frame.

Variable env : Env.

(** C2. A cumulative update with decision = block returns without
    modification: the whole engine state, hence the cumulative vector and
    the vector count of every profile, is what it was. *)
Theorem update_block_unchanged (uid : string) (sv : vec) (w : World) :
  _update_cumulative_vector env uid sv "block" w = (inr tt, w)
  /\ forall u : string,
      user_profiles (snd (_update_cumulative_vector env uid sv "block" w)) !! u
      = user_profiles w !! u.
Proof.
  assert (E : _update_cumulative_vector env uid sv "block" w = (inr tt, w))
    by reflexivity.
  split; [exact E | intro u; rewrite E; reflexivity].
Qed.

(** C10. For a user whose profile is not in the in-memory cache the
    cumulative update is a no-op, whatever the decision: the engine state
    is unchanged, so a cumulative vector or count changes only for a
    user whose profile was loaded into the cache before. *)
Theorem update_uncached_noop (uid : string) (sv : vec) (dec : string)
  (w : World) :
  user_profiles w !! uid = None ->
  _update_cumulative_vector env uid sv dec w = (inr tt, w).
Proof.
  intros Hnone. unfold _update_cumulative_vector, try_except, bind, get_world.
  destruct (dec =? "block")%string; [reflexivity |].
  simpl. rewrite Hnone. reflexivity.
Qed.

End Frame.

Lemma update_uncached_noop_witness :
  _update_cumulative_vector
    (mk_env (fun _ => DbData []) 0 (fun _ => inr []) (fun _ => inr [])
      "division by zero")
    "alice" [1; 0; 0; 0]%float "allow" (new_engine 4)
  = (inr tt, new_engine 4).
Proof.
  apply (update_uncached_noop
           (mk_env (fun _ => DbData []) 0 (fun _ => inr []) (fun _ => inr [])
             "division by zero")
           "alice" [1; 0; 0; 0]%float "allow" (new_engine 4)).
  reflexivity.
Defined.

(** ** Similar vectors come from the cumulative index *)

Lemma insert_hit_In (m : Metric) (x h : float * Z) (l : list (float * Z)) :
  In h (insert_hit m x l) -> h = x \/ In h l.
Proof.
  induction l as [|y l IH]; simpl.
  - intros [->|[]]. now left.
  - destruct (goes_before m (fst x) (fst y)); simpl.
    + intros [->|H]; [now left | now right].
    + intros [->|H]; [right; now left |].
      destruct (IH H) as [->|H']; [now left | right; now right].
Qed.

Lemma rank_hits_labels (m : Metric) (q : vec) (vs : list vec) :
  forall (i : Z) (acc : list (float * Z)) (h : float * Z),
    In h (rank_hits m q vs i acc) ->
    In h acc \/ (i <= snd h < i + Z.of_nat (length vs)).
Proof.
  induction vs as [|v vs IH]; intros i acc h Hin; simpl in *.
  - now left.
  - destruct (IH _ _ _ Hin) as [H|H].
    + destruct (insert_hit_In _ _ _ _ H) as [->|H']; [right; simpl; lia | now left].
    + right. lia.
Qed.

Lemma faiss_search_labels (ix : FaissIndex) (q : vec) (k : Z)
  (hits : list (float * Z)) :
  faiss_search ix q k = inr hits ->
  (length hits <= Z.to_nat k)%nat
  /\ Forall (fun h => 0 <= snd h < ntotal ix) hits.
Proof.
  unfold faiss_search. destruct (length q =? dim ix)%nat; [|discriminate].
  intros [= <-]. split.
  - rewrite length_take. lia.
  - apply Forall_take, List.Forall_forall. intros h Hin.
    destruct (rank_hits_labels _ _ _ _ _ _ Hin) as [[]|H].
    unfold ntotal. lia.
Qed.

(** [_find_similar_vectors] never raises and never writes; it yields at
    most [k] entries, each tagged cumulative and labelled by a position
    of the cumulative index. *)
Lemma find_similar_spec (uid : string) (q : vec) (k : Z) (w : World) :
  exists l,
    _find_similar_vectors uid q k w = (inr l, w)
    /\ (length l <= Z.to_nat k)%nat
    /\ Forall (fun s => sv_type s = "cumulative"
                        /\ 0 <= sv_index s < ntotal (cumulative_index w)) l.
Proof.
  unfold _find_similar_vectors, try_except, bind, get_world, lift, ret.
  destruct (0 <? ntotal (cumulative_index w)).
  - destruct (faiss_search (cumulative_index w) (_normalize_vector q)
                (Z.min k (ntotal (cumulative_index w)))) as [e|hits] eqn:E.
    + exists []. repeat split; [simpl; lia | constructor].
    + destruct (faiss_search_labels _ _ _ _ E) as [_ Hl].
      eexists. split; [reflexivity|]. split.
      * rewrite length_take. lia.
      * apply Forall_take, List.Forall_forall. intros s Hs.
        apply List.in_map_iff in Hs as (h & <- & Hh).
        apply List.filter_In in Hh as [Hh _]. simpl. split; [reflexivity|].
        exact (proj1 (List.Forall_forall _ _) Hl h Hh).
  - exists []. repeat split; [simpl; lia | constructor].
Qed.


Lemma leb_weaken_06 (s : float) :
  (0.6 <=? s)%float = true -> (0.42 <=? s)%float = true.
Proof.
  rewrite !leb_spec. unfold SFleb.
  change (Prim2SF 0.6) with (S754_finite false 5404319552844595 (-53)).
  change (Prim2SF 0.42) with (S754_finite false 7566047373982433 (-54)).
  destruct (Prim2SF s) as [? | [] | | [] m e]; try (simpl; congruence).
  unfold SFcompare.
  destruct (Z.compare_spec (-53) e) as [E1|E1|E1];
    destruct (Z.compare_spec (-54) e) as [E2|E2|E2];
    try lia; congruence.
Qed.

Lemma leb_weaken_08 (s : float) :
  (0.8 <=? s)%float = true -> (0.64000000000000012 <=? s)%float = true.
Proof.
  rewrite !leb_spec. unfold SFleb.
  change (Prim2SF 0.8) with (S754_finite false 7205759403792794 (-53)).
  change (Prim2SF 0.64000000000000012)
    with (S754_finite false 5764607523034236 (-53)).
  destruct (Prim2SF s) as [? | [] | | [] m e]; try (simpl; congruence).
  unfold SFcompare.
  destruct (Z.compare_spec (-53) e) as [E1|E1|E1]; try congruence.
  change (Pos.compare_cont Eq 7205759403792794 m)
    with (7205759403792794 ?= m)%positive.
  change (Pos.compare_cont Eq 5764607523034236 m)
    with (5764607523034236 ?= m)%positive.
  destruct (Pos.compare_spec 7205759403792794 m) as [C1|C1|C1].
  all: destruct (Pos.compare_spec 5764607523034236 m) as [C2|C2|C2].
  all: try (intros _; reflexivity).
  all: try (intros; discriminate).
  - subst m. vm_compute in C2. discriminate.
  - pose proof (Pos.lt_trans _ _ _ C1 C2) as C. vm_compute in C. discriminate.
Qed.

(** ** Decision policy by phase *)

(** C4 (amended). Gradual phase, for a profile whose count converts to a
    float (it is below 2^1024 - 2^970).  With fewer than three folded
    sessions the result is learn with similarity 0.8 and confidence 0.6.
    Otherwise, with s = cosine(session, cumulative) and T = 0.6: s >= T
    gives allow/low, 0.42 <= s < T gives challenge/medium, s < 0.42 gives
    block/high, and the confidence is min(0.8, count / 10).  The analysis
    writes nothing. *)
Theorem gradual_phase_policy (uid : string) (sv : vec)
  (p : UserVectorProfile) (w : World) :
  vector_count p < float_overflow_bound ->
  exists r,
    _analyze_gradual_phase uid sv p w = (inr r, w)
    /\ (vector_count p < 3 ->
        decision r = "learn" /\ similarity_score r = 0.8%float
        /\ confidence r = 0.6%float)
    /\ (3 <= vector_count p ->
        let s := _calculate_cosine_similarity sv (Some (cumulative_vector p)) in
        similarity_score r = s
        /\ confidence r
           = py_min 0.8%float (float_of_int (vector_count p) / 10)%float
        /\ ((0.6 <=? s)%float = true ->
            decision r = "allow" /\ risk_level r = "low")
        /\ ((0.42 <=? s)%float = true -> (s <? 0.6)%float = true ->
            decision r = "challenge" /\ risk_level r = "medium")
        /\ ((s <? 0.42)%float = true ->
            decision r = "block" /\ risk_level r = "high")).
Proof.
  intros Hbound. unfold _analyze_gradual_phase.
  destruct (vector_count p <? 3) eqn:Hc.
  - eexists. split; [reflexivity|]. split.
    + intros _. simpl. repeat split.
    + intros H. apply Z.ltb_lt in Hc. lia.
  - apply Z.ltb_ge in Hc.
    rewrite gradual_lower_threshold. unfold threshold_gradual_risk.
    set (s := _calculate_cosine_similarity sv (Some (cumulative_vector p))).
    assert (Hq : int_div_float (vector_count p) 10
                 = inr (float_of_int (vector_count p) / 10)%float).
    { apply int_div_float_in_range. split; [lia | exact Hbound]. }
    destruct (0.6 <=? s)%float eqn:H1; [|destruct (0.42 <=? s)%float eqn:H2];
      unfold bind, lift; rewrite Hq;
      (eexists; split; [reflexivity|]; split; [intros; lia|]);
      intros _; simpl; repeat split.
    all: repeat match goal with
           | h : (_ <? _)%float = true |- _ => apply ltb_leb_false in h
           end.
    all: try pose proof (leb_weaken_06 _ H1).
    all: congruence.
Qed.

(** C4 as stated fails for a count that does not convert to a float: the
    division count / 10.0 raises, and the analysis has no result. *)
Lemma gradual_phase_overflow :
  _analyze_gradual_phase "alice" [1; 0]%float
    (mk_profile "alice" [1; 0]%float None [] (2 ^ 1024) 0 "gradual_risk")
    (new_engine 2)
  = (inl "int too large to convert to float", new_engine 2).
Proof. vm_compute. reflexivity. Qed.

Section Baseline.

Variable env : Env.

(** What baseline creation leaves behind, for the cached profile [p] of
    [uid]: it never raises; below ten sessions it does nothing; otherwise
    it sends one insert, and the profile gets the cumulative vector as
    baseline if the insert did not raise and keeps the baseline it had if
    it raised.  Nothing else of the profile, no other profile and no other
    index changes. *)
Lemma create_baseline_effect (uid : string) (p : UserVectorProfile)
  (w : World) :
  user_profiles w !! uid = Some p ->
  exists w' p',
    _create_baseline_vector env uid p w = (inr tt, w')
    /\ user_profiles w' !! uid = Some p'
    /\ cumulative_vector p' = cumulative_vector p
    /\ vector_count p' = vector_count p
    /\ learning_phase p' = learning_phase p
    /\ baseline_vector p'
       = (if vector_count p <? 10 then baseline_vector p
          else match db_reply env (length (db_log w)) with
               | DbData _ => Some (cumulative_vector p)
               | DbRaise _ => baseline_vector p
               end)
    /\ db_log w'
       = (if vector_count p <? 10 then db_log w
          else (db_log w
                ++ [InsertVector
                      (baseline_record env uid (cumulative_vector p))])%list)
    /\ cumulative_index w' = cumulative_index w
    /\ session_index w' = session_index w
    /\ (forall u, u <> uid -> user_profiles w' !! u = user_profiles w !! u).
Proof.
  intros Hc. unfold _create_baseline_vector, try_except.
  destruct (vector_count p <? 10) eqn:Hn.
  - exists w, p. simpl. repeat split; auto.
  - unfold bind, db_execute.
    destruct (db_reply env (length (db_log w))) as [msg|rows].
    + eexists _, p. simpl. repeat split; auto.
    + unfold deref, set_profile, baseline_index_add, ret. simpl.
      rewrite Hc. simpl.
      destruct (faiss_add (baseline_index w) (cumulative_vector p));
        (eexists _, _; simpl; split; [reflexivity|]);
        simpl; rewrite lookup_insert_eq;
        repeat split; auto; intros u Hu; now rewrite lookup_insert_ne.
Qed.

End Baseline.

(** C6 (amended). Learning phase, for a profile whose count is a count
    (not negative) that converts to a float (it is below 2^1024 - 2^970).
    With count = 0 the result is learn, similarity 0.0, confidence 0.2,
    risk low, and the single risk factor
    "First session - no baseline for comparison", written with a
    hyphen-minus.  Otherwise it is learn with similarity
    cosine(session, cumulative), confidence min(0.8, count / 5) and at most
    three similar vectors, all of the cumulative index.  The analysis writes
    nothing. *)
Theorem learning_phase_policy (uid : string) (sv : vec)
  (p : UserVectorProfile) (w : World) :
  0 <= vector_count p < float_overflow_bound ->
  exists r,
    _analyze_learning_phase uid sv p w = (inr r, w)
    /\ decision r = "learn"
    /\ (vector_count p = 0 ->
        similarity_score r = 0%float /\ confidence r = 0.2%float
        /\ risk_level r = "low"
        /\ risk_factors r = ["First session - no baseline for comparison"])
    /\ (vector_count p <> 0 ->
        similarity_score r
        = _calculate_cosine_similarity sv (Some (cumulative_vector p))
        /\ confidence r
           = py_min 0.8%float (float_of_int (vector_count p) / 5)%float
        /\ (length (similar_vectors r) <= 3)%nat
        /\ Forall (fun s => sv_type s = "cumulative"
                            /\ 0 <= sv_index s < ntotal (cumulative_index w))
                  (similar_vectors r)).
Proof.
  intros Hnn. unfold _analyze_learning_phase.
  destruct (0 <? vector_count p) eqn:Hc.
  - apply Z.ltb_lt in Hc. unfold bind at 1.
    destruct (find_similar_spec uid sv 5 w) as (l & -> & _ & Hl).
    unfold bind, lift. rewrite (int_div_float_in_range _ _ Hnn).
    eexists. split; [reflexivity|]. simpl. split; [reflexivity|]. split.
    + intros H0. lia.
    + intros _. repeat split.
      * rewrite length_take. lia.
      * now apply Forall_take.
  - apply Z.ltb_ge in Hc. eexists. split; [reflexivity|]. simpl.
    split; [reflexivity|]. split; [intros _; repeat split | intros H; lia].
Qed.

(** Beyond that range the division count / 5.0 raises, and the analysis
    has no result. *)
Example learning_phase_overflow :
  _analyze_learning_phase "alice" [1; 0]%float
    (mk_profile "alice" [1; 0]%float None [] (2 ^ 1024) 0 "learning")
    (new_engine 2)
  = (inl "int too large to convert to float", new_engine 2).
Proof. vm_compute. reflexivity. Qed.

Lemma learning_phase_policy_witness :
  exists r,
    _analyze_learning_phase "alice" [1; 0; 0; 0]%float
      (mk_profile "alice" [0; 0; 0; 0]%float None [] 0 0 "learning")
      (new_engine 4)
    = (inr r, new_engine 4)
    /\ decision r = "learn" /\ confidence r = 0.2%float.
Proof.
  destruct (learning_phase_policy "alice" [1; 0; 0; 0]%float
              (mk_profile "alice" [0; 0; 0; 0]%float None [] 0 0 "learning")
              (new_engine 4)) as (r & Hr & Hd & H0 & _).
  - split; [simpl; lia | vm_compute; reflexivity].
  - exists r. split; [exact Hr|]. split; [exact Hd|].
    apply H0. reflexivity.
Defined.

(** C6 as stated fails on the text of the risk factor: the engine writes a
    hyphen-minus where the claim has a dash. *)
Lemma learning_phase_first_session_text :
  exists r,
    _analyze_learning_phase "alice" [1; 0; 0; 0]%float
      (mk_profile "alice" [0; 0; 0; 0]%float None [] 0 0 "learning")
      (new_engine 4)
    = (inr r, new_engine 4)
    /\ risk_factors r = ["First session - no baseline for comparison"]
    /\ risk_factors r <> ["First session — no baseline for comparison"].
Proof.
  eexists. split; [reflexivity|]. simpl. split; [reflexivity|]. discriminate.
Qed.

Section FullAuth.

Variable env : Env.

(** C5 (amended). Full-authentication phase, for the cached profile [p]
    of [uid].  A profile without baseline first goes through baseline
    creation, which sets the cumulative vector as baseline only when the
    count is at least 10 and the insert does not fail; a baseline already
    there is kept.  Then, with the baseline term counting 0.0 when there
    is still no baseline, s = max(cosine(session, baseline),
    cosine(session, cumulative)) and T = 0.8: s >= T gives allow/low,
    T*0.8 <= s < T gives challenge/medium, s < T*0.8 gives block/high,
    where T*0.8 is the binary64 product 0.6400000000000001; the
    confidence is 0.9. *)
Theorem full_auth_phase_policy (uid : string) (sv : vec)
  (p : UserVectorProfile) (w : World) :
  user_profiles w !! uid = Some p ->
  exists r w' p',
    _analyze_full_auth_phase env uid sv p w = (inr r, w')
    /\ user_profiles w' !! uid = Some p'
    /\ baseline_vector p'
       = match baseline_vector p with
         | Some b => Some b
         | None =>
             if vector_count p <? 10 then None
             else match db_reply env (length (db_log w)) with
                  | DbData _ => Some (cumulative_vector p)
                  | DbRaise _ => None
                  end
         end
    /\ let s :=
         py_max (_calculate_cosine_similarity sv (baseline_vector p'))
                (_calculate_cosine_similarity sv
                   (Some (cumulative_vector p))) in
       similarity_score r = s
       /\ confidence r = 0.9%float
       /\ ((0.8 <=? s)%float = true ->
           decision r = "allow" /\ risk_level r = "low")
       /\ ((0.64000000000000012 <=? s)%float = true ->
           (s <? 0.8)%float = true ->
           decision r = "challenge" /\ risk_level r = "medium")
       /\ ((s <? 0.64000000000000012)%float = true ->
           decision r = "block" /\ risk_level r = "high").
Proof.
  intros Hc. unfold _analyze_full_auth_phase.
  assert (Hpre : exists w' p',
             (match baseline_vector p with
              | Some _ => ret tt
              | None => _create_baseline_vector env uid p
              end) w = (inr tt, w')
             /\ user_profiles w' !! uid = Some p'
             /\ cumulative_vector p' = cumulative_vector p
             /\ baseline_vector p'
                = match baseline_vector p with
                  | Some b => Some b
                  | None =>
                      if vector_count p <? 10 then None
                      else match db_reply env (length (db_log w)) with
                           | DbData _ => Some (cumulative_vector p)
                           | DbRaise _ => None
                           end
                  end).
  { destruct (baseline_vector p) as [b|] eqn:Hb.
    - exists w, p. rewrite Hb. repeat split; auto.
    - destruct (create_baseline_effect env uid p w Hc)
        as (w' & p' & E & Hl & Hcum & _ & _ & Hbl & _).
      exists w', p'. rewrite Hb in Hbl. repeat split; auto. }
  destruct Hpre as (w' & p' & E & Hl & Hcum & Hbl).
  unfold bind at 1. rewrite E. unfold bind at 1, deref. rewrite Hl.
  change (default p (Some p')) with p'. unfold bind.
  destruct (find_similar_spec uid sv 5 w') as (l & -> & _).
  rewrite full_auth_lower_threshold. unfold threshold_full_auth.
  rewrite Hcum.
  set (s := py_max (_calculate_cosine_similarity sv (baseline_vector p'))
              (_calculate_cosine_similarity sv (Some (cumulative_vector p)))).
  destruct (0.8 <=? s)%float eqn:H1;
    [|destruct (0.64000000000000012 <=? s)%float eqn:H2];
    (eexists _, w', p'; split; [reflexivity|]; split; [exact Hl|];
     split; [exact Hbl|]); cbv zeta; fold s;
    cbn [similarity_score confidence decision risk_level]; repeat split.
  all: repeat match goal with
         | h : (_ <? _)%float = true |- _ => apply ltb_leb_false in h
         end.
  all: try pose proof (leb_weaken_08 _ H1).
  all: congruence.
Qed.

End FullAuth.

Lemma full_auth_phase_policy_witness :
  exists r w' p',
    _analyze_full_auth_phase quiet_env "alice" [1; 0]%float
      (mk_profile "alice" [1; 0]%float (Some [1; 0]%float) [] 12 0 "full_auth")
      (engine_with 2
         (mk_profile "alice" [1; 0]%float (Some [1; 0]%float) [] 12 0
                     "full_auth"))
    = (inr r, w')
    /\ user_profiles w' !! "alice" = Some p'
    /\ baseline_vector p' = Some [1; 0]%float
    /\ confidence r = 0.9%float.
Proof.
  destruct (full_auth_phase_policy quiet_env "alice" [1; 0]%float
              (mk_profile "alice" [1; 0]%float (Some [1; 0]%float) [] 12 0
                          "full_auth")
              (engine_with 2
                 (mk_profile "alice" [1; 0]%float (Some [1; 0]%float) [] 12 0
                             "full_auth")))
    as (r & w' & p' & E & Hl & Hb & _ & Hconf & _).
  - reflexivity.
  - exists r, w', p'. repeat split; assumption.
Defined.

(** C5 as stated fails twice.  A profile with three sessions and no
    baseline gets none from the analysis; and a similarity of exactly 0.64
    (session (16, 19.209372712298546) against the profile (1, 0)) is blocked,
    because the lower threshold 0.8 * 0.8 rounds to 0.6400000000000001. *)
Lemma full_auth_claim_fails :
  (exists r w' p',
      _analyze_full_auth_phase quiet_env "alice" [1; 0]%float
        (mk_profile "alice" [1; 0]%float None [] 3 0 "full_auth")
        (engine_with 2 (mk_profile "alice" [1; 0]%float None [] 3 0 "full_auth"))
      = (inr r, w')
      /\ user_profiles w' !! "alice" = Some p'
      /\ baseline_vector p' = None)
  /\ (exists r w',
         _analyze_full_auth_phase quiet_env "alice"
           [16; 19.209372712298546]%float
           (mk_profile "alice" [1; 0]%float (Some [1; 0]%float) [] 12 0
                       "full_auth")
           (engine_with 2
              (mk_profile "alice" [1; 0]%float (Some [1; 0]%float) [] 12 0
                          "full_auth"))
         = (inr r, w')
         /\ similarity_score r = 0.64%float
         /\ (0.64 <=? similarity_score r)%float = true
         /\ (similarity_score r <? 0.8)%float = true
         /\ decision r = "block" /\ risk_level r = "high").
Proof.
  split.
  - eexists _, _, _. split; [vm_compute; reflexivity|].
    split; [reflexivity|]. reflexivity.
  - eexists _, _. split; [vm_compute; reflexivity|].
    repeat split.
Qed.

(** ** Cumulative update: the moving average *)

Lemma length_normalize (v : vec) : length (_normalize_vector v) = length v.
Proof.
  unfold _normalize_vector, np_div.
  destruct (np_linalg_norm v =? 0)%float; [reflexivity | apply length_map].
Qed.

Lemma length_zip_add (a b : vec) :
  length a = length b -> length (zip_add a b) = length a.
Proof.
  revert b. induction a as [|x a IH]; intros [|y b] H; simpl in *;
    try discriminate; [reflexivity | f_equal; apply IH; congruence].
Qed.

Lemma blend_typed (p : UserVectorProfile) (sv : vec) :
  length (cumulative_vector p) = length sv ->
  exists v,
    blend p sv = inr v
    /\ length v = length sv
    /\ (_normalize_vector v, vector_count p + 1)
       = spec_cumulative_step (cumulative_vector p, vector_count p) sv.
Proof.
  intros Hlen. unfold blend, spec_cumulative_step. simpl.
  destruct (vector_count p =? 0).
  - exists sv. auto.
  - unfold np_add, np_scale. rewrite !length_map, Hlen, Nat.eqb_refl.
    eexists. split; [reflexivity|]. split; [|reflexivity].
    rewrite length_zip_add; rewrite !length_map; auto.
Qed.

Section Cumulative.

Variable env : Env.

(** One update for a cached profile, a decision other than block and
    vectors of the engine's dimension: whatever the database answers, the
    update is applied exactly once, as the specification words it, and
    the engine stays well dimensioned. *)
Lemma cumulative_update_step (uid : string) (sv : vec) (dec : string)
  (p : UserVectorProfile) (w : World) :
  well_dimensioned w ->
  user_profiles w !! uid = Some p ->
  dec <> "block" ->
  length sv = vector_dimension w ->
  exists w' p',
    _update_cumulative_vector env uid sv dec w = (inr tt, w')
    /\ user_profiles w' !! uid = Some p'
    /\ (cumulative_vector p', vector_count p')
       = spec_cumulative_step (cumulative_vector p, vector_count p) sv
    /\ baseline_vector p' = baseline_vector p
    /\ learning_phase p' = learning_phase p
    /\ well_dimensioned w'
    /\ vector_dimension w' = vector_dimension w
    /\ (forall u, u <> uid -> user_profiles w' !! u = user_profiles w !! u).
Proof.
  intros [Hix Hprof] Hc Hdec Hlen.
  destruct (blend_typed p sv) as (v & Hv & Hvl & Hspec).
  { rewrite (Hprof _ _ Hc). auto. }
  assert (Hadd : forall ix, dim ix = vector_dimension w ->
            faiss_add ix (_normalize_vector v)
            = inr (mk_index (metric ix) (dim ix)
                            (stored ix ++ [_normalize_vector v]))).
  { intros ix Hd. unfold faiss_add.
    rewrite length_normalize, Hvl, Hlen, Hd, Nat.eqb_refl. reflexivity. }
  unfold _update_cumulative_vector.
  apply String.eqb_neq in Hdec. rewrite Hdec.
  unfold try_except, bind, get_world, lift, set_profile, db_execute,
    cumulative_index_add, ret. rewrite Hc, Hv.
  assert (Hwd : forall ix l,
            dim ix = vector_dimension w ->
            well_dimensioned
              (mk_world (vector_dimension w) (session_index w) ix
                 (baseline_index w)
                 (<[uid := with_cumulative p (_normalize_vector v)
                             (vector_count p + 1) (utcnow env)]>
                    (user_profiles w)) l)).
  { intros ix l Hd. split; [exact Hd|]. simpl. intros u q Hq.
    destruct (decide (u = uid)) as [->|Hne].
    - rewrite lookup_insert_eq in Hq. injection Hq as <-. simpl.
      rewrite length_normalize, Hvl. exact Hlen.
    - rewrite lookup_insert_ne in Hq by congruence. eauto. }
  cbn [cumulative_index vector_dimension session_index baseline_index
       user_profiles db_log].
  destruct (db_reply env (length (db_log w))) as [msg|[|r rows]];
    cbn [cumulative_index vector_dimension session_index baseline_index
         user_profiles db_log];
    rewrite ?(Hadd _ Hix);
    (eexists _, _; split; [reflexivity|];
     cbn [cumulative_index vector_dimension session_index baseline_index
          user_profiles db_log];
     rewrite lookup_insert_eq; split; [reflexivity|];
     split; [exact Hspec|]; split; [reflexivity|]; split; [reflexivity|];
     split; [apply Hwd; auto|]; split; [reflexivity|];
     intros u Hu; now rewrite lookup_insert_ne).
Qed.

End Cumulative.




(** ** Phase transition *)

Section Transition.

Variable env : Env.

(** The phase update never raises, sends one update call, and sets the
    phase in memory if that call did not raise (it is left as it was
    otherwise). *)
Lemma update_phase_effect (uid ph : string) (p : UserVectorProfile)
  (w : World) :
  user_profiles w !! uid = Some p ->
  exists w' p',
    _update_user_learning_phase env uid ph w = (inr tt, w')
    /\ user_profiles w' !! uid = Some p'
    /\ db_log w' = (db_log w ++ [UpdateUserPhase uid ph])%list
    /\ baseline_vector p' = baseline_vector p
    /\ learning_phase p'
       = match db_reply env (length (db_log w)) with
         | DbData _ => ph
         | DbRaise _ => learning_phase p
         end.
Proof.
  intros Hc.
  unfold _update_user_learning_phase, try_except, bind, db_execute,
    get_world, set_profile, ret.
  destruct (db_reply env (length (db_log w))) as [msg|rows].
  - exists (mk_world (vector_dimension w) (session_index w)
              (cumulative_index w) (baseline_index w) (user_profiles w)
              (db_log w ++ [UpdateUserPhase uid ph])), p.
    repeat split; auto.
  - cbn [user_profiles]. rewrite Hc.
    eexists _, _. split; [reflexivity|]. cbn [user_profiles db_log].
    rewrite lookup_insert_eq. repeat split.
Qed.

(** C1 (amended). The transition from the gradual phase to full
    authentication (cached profile with at least ten sessions, phase
    gradual_risk in the database) first attempts the baseline insert and
    then attempts the phase update, whatever became of the baseline.
    Afterwards the baseline is the cumulative vector if the baseline
    insert did not fail and is what it was if it failed; the phase in
    memory is full_auth if the phase update did not fail and is what it
    was if it failed. *)
Theorem gradual_to_full_transition (uid : string) (p : UserVectorProfile)
  (w : World) (row : DbRow) (rows : list DbRow) :
  user_profiles w !! uid = Some p ->
  db_reply env (length (db_log w)) = DbData (row :: rows) ->
  row_current_phase row = Value "gradual_risk" ->
  10 <= vector_count p ->
  exists w' p',
    _check_learning_phase_transition env uid w = (inr tt, w')
    /\ db_log w'
       = (db_log w
            ++ [ SelectUserProfile uid;
                 InsertVector (baseline_record env uid (cumulative_vector p));
                 UpdateUserPhase uid "full_auth" ])%list
    /\ user_profiles w' !! uid = Some p'
    /\ baseline_vector p'
       = match db_reply env (S (length (db_log w))) with
         | DbData _ => Some (cumulative_vector p)
         | DbRaise _ => baseline_vector p
         end
    /\ learning_phase p'
       = match db_reply env (S (S (length (db_log w)))) with
         | DbData _ => "full_auth"
         | DbRaise _ => learning_phase p
         end.
Proof.
  intros Hc Hrow Hph Hn.
  unfold _check_learning_phase_transition, try_except.
  unfold bind at 1, get_world. rewrite Hc.
  unfold bind at 1, db_execute. rewrite Hrow. rewrite Hph.
  cbn [dict_get py_str_eqb String.eqb Ascii.eqb Bool.eqb andb].
  assert (H10 : (10 <=? vector_count p) = true) by (apply Z.leb_le; lia).
  rewrite H10. cbn [andb].
  set (w1 := mk_world (vector_dimension w) (session_index w)
               (cumulative_index w) (baseline_index w) (user_profiles w)
               (db_log w ++ [SelectUserProfile uid])).
  assert (Hc1 : user_profiles w1 !! uid = Some p) by exact Hc.
  destruct (create_baseline_effect env uid p w1 Hc1)
    as (w2 & p2 & E2 & Hc2 & _ & _ & Hph2 & Hb2 & Hlog2 & _).
  destruct (update_phase_effect uid "full_auth" p2 w2 Hc2)
    as (w3 & p3 & E3 & Hc3 & Hlog3 & Hb3 & Hph3).
  assert (Hlt : (vector_count p <? 10) = false) by (apply Z.ltb_ge; lia).
  rewrite Hlt in Hb2, Hlog2.
  assert (Hlen1 : length (db_log w1) = S (length (db_log w))).
  { subst w1. cbn [db_log]. rewrite length_app. simpl. lia. }
  assert (Hlen2 : length (db_log w2) = S (S (length (db_log w)))).
  { rewrite Hlog2, length_app, Hlen1. simpl. lia. }
  exists w3, p3. unfold bind. rewrite E2, E3.
  split; [reflexivity|]. split.
  { rewrite Hlog3, Hlog2. subst w1. cbn [db_log].
    rewrite <- !app_assoc. reflexivity. }
  split; [exact Hc3|]. split.
  - rewrite Hb3, Hb2, Hlen1. reflexivity.
  - rewrite Hph3, Hlen2, Hph2. reflexivity.
Qed.

End Transition.

Lemma gradual_to_full_transition_witness :
  exists w' p',
    _check_learning_phase_transition quiet_env_gradual "alice"
      (engine_with 2
         (mk_profile "alice" [1; 0]%float None [] 10 0 "gradual_risk"))
    = (inr tt, w')
    /\ user_profiles w' !! "alice" = Some p'
    /\ baseline_vector p' = Some [1; 0]%float
    /\ learning_phase p' = "full_auth".
Proof.
  destruct (gradual_to_full_transition quiet_env_gradual "alice"
              (mk_profile "alice" [1; 0]%float None [] 10 0 "gradual_risk")
              (engine_with 2
                 (mk_profile "alice" [1; 0]%float None [] 10 0 "gradual_risk"))
              (mk_row "1" [] None 0 (Value "gradual_risk")) [])
    as (w' & p' & E & _ & Hc & Hb & Hph).
  - reflexivity.
  - reflexivity.
  - reflexivity.
  - simpl. lia.
  - exists w', p'. repeat split; assumption.
Defined.

(** C1 as stated fails: when the baseline insert is refused, the phase is
    advanced all the same, and the profile is in full authentication
    without a baseline. *)
Lemma full_auth_without_baseline :
  exists w' p',
    _check_learning_phase_transition baseline_failure_env "alice"
      (engine_with 2
         (mk_profile "alice" [1; 0]%float None [] 10 0 "gradual_risk"))
    = (inr tt, w')
    /\ user_profiles w' !! "alice" = Some p'
    /\ learning_phase p' = "full_auth"
    /\ baseline_vector p' = None.
Proof.
  eexists _, _. split; [vm_compute; reflexivity|]. repeat split.
Qed.

(** ** The session pipeline *)

Lemma dot_all_zero (v : vec) : all_zero v -> dot_seq v v = 0%float.
Proof.
  unfold dot_seq. intros H.
  assert (G : forall acc, acc = 0%float ->
            fold_left (fun acc xy => (acc + fst xy * snd xy)%float)
                      (combine v v) acc = 0%float).
  { induction H as [|x l [->| ->] _ IH]; intros acc ->; simpl;
      [reflexivity | apply IH; reflexivity | apply IH; reflexivity]. }
  now apply G.
Qed.

Lemma sum_abs_all_zero (v : vec) : all_zero v -> np_sum_abs v = 0%float.
Proof.
  unfold np_sum_abs. intros H.
  assert (G : forall acc, acc = 0%float ->
            fold_left (fun acc x => (acc + PrimFloat.abs x)%float) v acc
            = 0%float).
  { induction H as [|x l [->| ->] _ IH]; intros acc ->; simpl;
      [reflexivity | apply IH; reflexivity | apply IH; reflexivity]. }
  now apply G.
Qed.

Lemma normalize_all_zero (v : vec) : all_zero v -> _normalize_vector v = v.
Proof.
  intros H. unfold _normalize_vector, np_linalg_norm.
  rewrite (dot_all_zero v H). reflexivity.
Qed.

Section Pipeline.

Variable env : Env.

(** C7 (amended). When the extracted session vector is not empty and all
    zero, the mobile pipeline short-circuits with a learn result of
    similarity 0.0, confidence 0.3, risk medium and the single risk factor
    "Invalid behavioral vector generated", carrying the vector and its
    statistics; it returns before the session record is stored: no
    database call is made and the engine state is unchanged. *)
Theorem zero_vector_short_circuit (uid sid phase : string)
  (logs : list LogEvent) (v : vec) (w : World) :
  logs <> [] ->
  process_mobile_behavioral_data_vector env logs = inr v ->
  v <> [] ->
  all_zero v ->
  exists stats,
    _calculate_vector_stats (numpy_empty_array_error env) v = inr stats
    /\ process_mobile_behavioral_data env uid sid logs phase w
       = (inr (mk_result 0%float 0.3%float "learn" "medium"
                         ["Invalid behavioral vector generated"] [] None
                         (Some v) (Some stats)), w).
Proof.
  intros Hlogs Hv Hne Hz.
  assert (Hs : exists stats,
             _calculate_vector_stats (numpy_empty_array_error env) v
             = inr stats).
  { unfold _calculate_vector_stats.
    destruct v as [|x v']; [congruence|].
    destruct (Z.of_nat (length (x :: v')) =? 0) eqn:E.
    - apply Z.eqb_eq in E. simpl in E. lia.
    - eexists. reflexivity. }
  destruct Hs as [stats Hs]. exists stats. split; [exact Hs|].
  unfold process_mobile_behavioral_data, try_except,
    process_mobile_behavioral_data_body.
  destruct logs as [|l0 logs']; [congruence|].
  unfold bind at 1, lift. rewrite Hv.
  rewrite (normalize_all_zero v Hz).
  unfold bind at 1. rewrite Hs.
  rewrite (sum_abs_all_zero v Hz). reflexivity.
Qed.

(** C8. Neither pipeline ever raises; and whenever the body of its [try]
    raises, the result returned is the fallback, whose decision is learn
    (never allow), with similarity 0.0, confidence 0.5 and risk medium,
    in the state the raise left behind. *)
Theorem error_never_allows (uid sid phase : string)
  (logs : list LogEvent) (w : World) :
  (exists r w',
      process_mobile_behavioral_data env uid sid logs phase w = (inr r, w'))
  /\ (exists r w',
         process_behavioral_data env uid sid logs phase w = (inr r, w'))
  /\ (forall e w1,
         process_mobile_behavioral_data_body env uid sid logs phase w
         = (inl e, w1) ->
         exists r,
           process_mobile_behavioral_data env uid sid logs phase w
           = (inr r, w1)
           /\ decision r = "learn" /\ decision r <> "allow"
           /\ similarity_score r = 0%float /\ confidence r = 0.5%float
           /\ risk_level r = "medium")
  /\ (forall e w1,
         process_behavioral_data_body env uid sid logs phase w
         = (inl e, w1) ->
         exists r,
           process_behavioral_data env uid sid logs phase w = (inr r, w1)
           /\ decision r = "learn" /\ decision r <> "allow"
           /\ similarity_score r = 0%float /\ confidence r = 0.5%float
           /\ risk_level r = "medium").
Proof.
  unfold process_mobile_behavioral_data, process_behavioral_data,
    try_except, ret.
  repeat split.
  - destruct (process_mobile_behavioral_data_body env uid sid logs phase w)
      as [[e|r] w']; eauto.
  - destruct (process_behavioral_data_body env uid sid logs phase w)
      as [[e|r] w']; eauto.
  - intros e w1 ->. eexists. split; [reflexivity|]. simpl.
    repeat split; discriminate.
  - intros e w1 ->. eexists. split; [reflexivity|]. simpl.
    repeat split; discriminate.
Qed.

End Pipeline.

Lemma zero_vector_short_circuit_witness :
  exists stats,
    _calculate_vector_stats (numpy_empty_array_error zero_vector_env)
      [0; 0; 0; 0]%float = inr stats
    /\ process_mobile_behavioral_data zero_vector_env "alice" "s1"
         [mk_event "touch"] "learning" (new_engine 4)
       = (inr (mk_result 0%float 0.3%float "learn" "medium"
                         ["Invalid behavioral vector generated"] [] None
                         (Some [0; 0; 0; 0]%float) (Some stats)),
          new_engine 4).
Proof.
  apply (zero_vector_short_circuit zero_vector_env "alice" "s1" "learning"
           [mk_event "touch"] [0; 0; 0; 0]%float (new_engine 4)).
  - discriminate.
  - reflexivity.
  - discriminate.
  - repeat constructor.
Defined.

(** C7 as stated fails on its last part: on the zero vector the pipeline
    returns without any attempt to store the session record (no database
    call is logged, the session index stays empty). *)
Lemma zero_vector_not_stored :
  exists r w',
    process_mobile_behavioral_data zero_vector_env "alice" "s1"
      [mk_event "touch"] "learning" (new_engine 4)
    = (inr r, w')
    /\ risk_factors r = ["Invalid behavioral vector generated"]
    /\ db_log w' = []
    /\ stored (session_index w') = [].
Proof.
  eexists _, _. split; [vm_compute; reflexivity|]. repeat split.
Qed.

Lemma error_never_allows_witness :
  exists r,
    process_mobile_behavioral_data broken_processor_env "alice" "s1"
      [mk_event "touch"] "full_auth" (new_engine 4)
    = (inr r, new_engine 4)
    /\ decision r = "learn" /\ decision r <> "allow".
Proof.
  destruct (error_never_allows broken_processor_env "alice" "s1" "full_auth"
              [mk_event "touch"] (new_engine 4)) as (_ & _ & H & _).
  destruct (H "malformed event" (new_engine 4)) as (r & E & Hd & Hna & _).
  - reflexivity.
  - exists r. repeat split; assumption.
Defined.

(** ** The internal user id *)

Lemma hex_digit_is_hex (k : Z) :
  0 <= k < 16 -> is_hex_char (MD5.hex_digit k) = true.
Proof.
  intros H.
  assert (E : k = 0 \/ k = 1 \/ k = 2 \/ k = 3 \/ k = 4 \/ k = 5 \/ k = 6
              \/ k = 7 \/ k = 8 \/ k = 9 \/ k = 10 \/ k = 11 \/ k = 12
              \/ k = 13 \/ k = 14 \/ k = 15) by lia.
  repeat (destruct E as [->|E]; [reflexivity|]). subst. reflexivity.
Qed.

Lemma hex_byte_is_hex (b : Z) :
  0 <= b < 256 ->
  Forall (fun c => is_hex_char c = true) (MD5.hex_byte b).
Proof.
  intros H. unfold MD5.hex_byte.
  repeat constructor; apply hex_digit_is_hex.
  - split; [apply Z.div_pos; lia | apply Z.div_lt_upper_bound; lia].
  - apply Z.mod_pos_bound. lia.
Qed.

Lemma le_bytes_range (n : nat) :
  forall x, Forall (fun b => 0 <= b < 256) (MD5.le_bytes n x).
Proof.
  induction n as [|n IH]; intros x; simpl; constructor.
  - apply Z.mod_pos_bound. lia.
  - apply IH.
Qed.

Lemma le_bytes_length (n : nat) : forall x, length (MD5.le_bytes n x) = n.
Proof. induction n as [|n IH]; intros x; simpl; [|rewrite IH]; reflexivity. Qed.

Lemma digest_bytes (msg : list Z) :
  length (MD5.digest msg) = 16%nat
  /\ Forall (fun b => 0 <= b < 256) (MD5.digest msg).
Proof.
  unfold MD5.digest. split.
  - rewrite !length_app, !le_bytes_length. reflexivity.
  - repeat (apply Forall_app; split); apply le_bytes_range.
Qed.

Lemma canonical_of_bytes (bs : list Z) :
  length bs = 16%nat ->
  Forall (fun b => 0 <= b < 256) bs ->
  is_canonical_uuid (uuid_of_bytes bs) = true.
Proof.
  intros Hlen Hall.
  do 16 (destruct bs as [|? bs]; [discriminate|]).
  destruct bs; [|discriminate]. clear Hlen.
  repeat match goal with
         | H : Forall _ (_ :: _) |- _ =>
             let Hb := fresh "Hb" in
             apply Forall_cons in H as [Hb H];
             apply hex_byte_is_hex in Hb;
             unfold MD5.hex_byte in Hb;
             apply Forall_cons in Hb as [? Hb];
             apply Forall_cons in Hb as [? _]
         end.
  cbv -[MD5.hex_digit is_hex_char Z.div Z.modulo].
  repeat match goal with H : is_hex_char _ = true |- _ => rewrite H; clear H end.
  reflexivity.
Qed.

Lemma length_of_bytes (bs : list Z) :
  length bs = 16%nat -> String.length (uuid_of_bytes bs) = 36%nat.
Proof.
  intros Hlen.
  do 16 (destruct bs as [|? bs]; [discriminate|]).
  destruct bs; [|discriminate].
  cbv -[MD5.hex_digit Z.div Z.modulo]. reflexivity.
Qed.

(** C9. The internal id is a function of the external id alone (equal
    inputs give equal outputs), and its value is the text of a 128-bit
    identifier, the 16 bytes of the MD5 digest, in the canonical form: 36
    characters, lower-case hexadecimal digits in groups of 8, 4, 4, 4 and 12
    separated by hyphens. *)
Theorem internal_id_canonical (u : string) :
  (forall u', u = u' ->
              _generate_uuid_from_string u = _generate_uuid_from_string u')
  /\ (exists bs,
         length bs = 16%nat
         /\ Forall (fun b => 0 <= b < 256) bs
         /\ _generate_uuid_from_string u = uuid_of_bytes bs)
  /\ String.length (_generate_uuid_from_string u) = 36%nat
  /\ is_canonical_uuid (_generate_uuid_from_string u) = true.
Proof.
  pose proof (digest_bytes (MD5.bytes_of_string u)) as [Hlen Hall].
  assert (E : _generate_uuid_from_string u
              = uuid_of_bytes (MD5.digest (MD5.bytes_of_string u)))
    by reflexivity.
  split; [intros u' ->; reflexivity|]. split.
  - eexists. split; [exact Hlen|]. split; [exact Hall | exact E].
  - rewrite E. split.
    + now apply length_of_bytes.
    + now apply canonical_of_bytes.
Qed.

Example internal_id_alice :
  _generate_uuid_from_string "alice" = "6384e2b2-184b-cbf5-8ecc-f10ca7a6563c".
Proof. vm_compute. reflexivity. Qed.
Example md5_empty : MD5.hexdigest "" = "d41d8cd98f00b204e9800998ecf8427e".
Proof. vm_compute. reflexivity. Qed.

Example md5_abc : MD5.hexdigest "abc" = "900150983cd24fb0d6963f7d28e17f72".
Proof. vm_compute. reflexivity. Qed.

Example md5_two_blocks :
  MD5.hexdigest
    "aaaaaaaaaaaaaaaaaaaaaaaaaaaaaaaaaaaaaaaaaaaaaaaaaaaaaaaaaaaaaaaaaaaaaa"
  = "0f5c6c4e740bfcc08c3c26ccb2673d46".
Proof. vm_compute. reflexivity. Qed.

Example uuid_user123 :
  _generate_uuid_from_string "user123"
  = "6ad14ba9-986e-3615-423d-fca256d04e3f".
Proof. vm_compute. reflexivity. Qed.

(** ** The scenarios of the specification, run on the engine *)

Lemma gradual_phase_policy_witness :
  exists r,
    _analyze_gradual_phase "alice" [0.98; 0.2; 0; 0]%float
      (mk_profile "alice" [1; 0; 0; 0]%float None [] 5 0 "gradual_risk")
      (new_engine 4)
    = (inr r, new_engine 4)
    /\ decision r = "allow" /\ risk_level r = "low"
    /\ confidence r = 0.5%float.
Proof.
  destruct (gradual_phase_policy "alice" [0.98; 0.2; 0; 0]%float
              (mk_profile "alice" [1; 0; 0; 0]%float None [] 5 0 "gradual_risk")
              (new_engine 4)) as (r & E & _ & H);
    [vm_compute; reflexivity|].
  destruct H as (_ & Hconf & Hallow & _); [simpl; lia|].
  exists r. split; [exact E|].
  destruct Hallow as [Hd Hr]; [vm_compute; reflexivity|].
  repeat split; [exact Hd | exact Hr |].
  rewrite Hconf. vm_compute. reflexivity.
Defined.

(** S4: an orthogonal session in the gradual phase is blocked, and the
    cumulative update that follows leaves the profile alone. *)
Example scenario_gradual_block :
  exists r,
    _analyze_gradual_phase "alice" [0; 1; 0; 0]%float
      (mk_profile "alice" [1; 0; 0; 0]%float None [] 5 0 "gradual_risk")
      (new_engine 4)
    = (inr r, new_engine 4)
    /\ similarity_score r = 0%float /\ decision r = "block"
    /\ risk_level r = "high".
Proof. eexists. split; [vm_compute; reflexivity|]. repeat split. Qed.

(** S1: the first session of a new user through the mobile pipeline. *)
Example scenario_first_session :
  exists r w' p',
    process_mobile_behavioral_data
      (mk_env (fun _ => DbData []) 0
              (fun _ => inr [1; 0; 0; 0]%float) (fun _ => inr [])
                "division by zero")
      "alice" "s1" [mk_event "touch"] "learning" (new_engine 4)
    = (inr r, w')
    /\ decision r = "learn" /\ similarity_score r = 0%float
    /\ confidence r = 0.2%float
    /\ user_profiles w' !! "alice" = Some p'
    /\ vector_count p' = 1 /\ cumulative_vector p' = [1; 0; 0; 0]%float.
Proof.
  eexists _, _, _. split; [vm_compute; reflexivity|]. repeat split.
Qed.

(** * Further properties of the engine *)

(** ** Vector primitives *)

(** X1. The cosine similarity is never above 1 and never below -1, whatever
    the two vectors; it is 0.0 when the second vector is missing or the
    lengths differ. *)
Theorem cosine_similarity_clipped (v1 : vec) (v2 : option vec) :
  (1 <? _calculate_cosine_similarity v1 v2)%float = false
  /\ (_calculate_cosine_similarity v1 v2 <? -1)%float = false
  /\ (v2 = None -> _calculate_cosine_similarity v1 v2 = 0%float)
  /\ (forall b, v2 = Some b -> length v1 <> length b ->
                _calculate_cosine_similarity v1 v2 = 0%float).
Proof.
  assert (Hclip : forall x,
             (1 <? np_clip x (-1) 1)%float = false
             /\ (np_clip x (-1) 1 <? -1)%float = false).
  { intros x. unfold np_clip.
    destruct (x <? -1)%float eqn:E1; [split; reflexivity|].
    destruct (1 <? x)%float eqn:E2; [split; reflexivity|]. now split. }
  repeat split.
  - unfold _calculate_cosine_similarity. destruct v2 as [b|]; [|reflexivity].
    destruct (np_dot _ _); [reflexivity | apply Hclip].
  - unfold _calculate_cosine_similarity. destruct v2 as [b|]; [|reflexivity].
    destruct (np_dot _ _); [reflexivity | apply Hclip].
  - intros ->. reflexivity.
  - intros b -> Hlen. unfold _calculate_cosine_similarity, np_dot.
    rewrite !length_normalize.
    destruct (Nat.eqb_spec (length v1) (length b)); [contradiction|reflexivity].
Qed.

Lemma cosine_similarity_clipped_witness :
  _calculate_cosine_similarity [1; 0]%float (Some [1; 0; 0]%float) = 0%float.
Proof.
  destruct (cosine_similarity_clipped [1; 0]%float (Some [1; 0; 0]%float))
    as (_ & _ & _ & H).
  apply (H [1; 0; 0]%float); [reflexivity | simpl; lia].
Defined.

Lemma faiss_add_inr (ix ix' : FaissIndex) (v : vec) :
  faiss_add ix v = inr ix' ->
  stored ix' = (stored ix ++ [v])%list /\ dim ix' = dim ix
  /\ metric ix' = metric ix /\ length v = dim ix.
Proof.
  unfold faiss_add. destruct (Nat.eqb_spec (length v) (dim ix)); [|discriminate].
  intros [= <-]. simpl. auto.
Qed.

Section Storage.

Variable env : Env.

(** What storing a session vector of the mobile pipeline leaves behind. *)
Lemma store_mobile_effect (uid sid : string) (v : vec) (w : World) :
  exists r w',
    _store_session_vector_mobile env uid sid v w = (inr r, w')
    /\ user_profiles w' = user_profiles w
    /\ cumulative_index w' = cumulative_index w
    /\ baseline_index w' = baseline_index w
    /\ vector_dimension w' = vector_dimension w
    /\ (forall id, r = Some id ->
          stored (session_index w') = (stored (session_index w) ++ [v])%list
          /\ dim (session_index w') = dim (session_index w)
          /\ length v = dim (session_index w))
    /\ (r = None -> session_index w' = session_index w)
    /\ (length (db_log w) < length (db_log w') <= length (db_log w) + 3)%nat.
Proof.
  unfold _store_session_vector_mobile. unfold_monad.
  repeat split_case.
  all: eexists _, _; split; [reflexivity|]; reduce_world.
  all: repeat match goal with
         | A : faiss_add _ _ = inr _ |- _ => apply faiss_add_inr in A
         end.
  all: split; [reflexivity|]; split; [reflexivity|]; split; [reflexivity|];
       split; [reflexivity|].
  all: split; [intros id Hid; try discriminate; tauto|].
  all: split; [intros Hnone; try discriminate; reflexivity|].
  all: rewrite ?length_app; simpl; lia.
Qed.

End Storage.

(** ** The profile cache *)

Section Cache.

Variable env : Env.

(** What a look-up in the profile cache leaves behind. *)
Lemma get_or_create_effect (uid : string) (w : World) :
  exists p w',
    _get_or_create_user_profile env uid w = (inr p, w')
    /\ user_profiles w' !! uid = Some p
    /\ (forall u, u <> uid -> user_profiles w' !! u = user_profiles w !! u)
    /\ session_index w' = session_index w
    /\ cumulative_index w' = cumulative_index w
    /\ baseline_index w' = baseline_index w
    /\ vector_dimension w' = vector_dimension w
    /\ (forall q, user_profiles w !! uid = Some q -> p = q /\ w' = w)
    /\ (user_profiles w !! uid = None ->
        user_profiles w' = <[uid := p]> (user_profiles w)
        /\ user_id p = uid
        /\ (length (db_log w) < length (db_log w')
            <= length (db_log w) + 3)%nat).
Proof.
  unfold _get_or_create_user_profile. unfold_monad.
  destruct (user_profiles w !! uid) as [q|] eqn:Hq.
  - exists q, w. repeat split; auto; try congruence.
  - repeat split_case.
    all: eexists _, _; split; [reflexivity|]; reduce_world.
    all: rewrite lookup_insert_eq.
    all: repeat split; try reflexivity; try discriminate.
    all: try (count_calls; lia).
    all: intros u Hu; now rewrite lookup_insert_ne.
Qed.

End Cache.

(** ** The cumulative update on every input *)

Section UpdateFrame.

Variable env : Env.

Lemma update_cumulative_frame (uid : string) (sv : vec) (dec : string)
  (w : World) :
  exists w',
    _update_cumulative_vector env uid sv dec w = (inr tt, w')
    /\ session_index w' = session_index w
    /\ baseline_index w' = baseline_index w
    /\ vector_dimension w' = vector_dimension w
    /\ (forall u, u <> uid -> user_profiles w' !! u = user_profiles w !! u)
    /\ (user_profiles w !! uid = None -> w' = w)
    /\ (forall p, user_profiles w !! uid = Some p ->
          exists p',
            user_profiles w' !! uid = Some p'
            /\ baseline_vector p' = baseline_vector p
            /\ learning_phase p' = learning_phase p
            /\ user_id p' = user_id p
            /\ vector_count p <= vector_count p' <= vector_count p + 2)
    /\ (dec = "block" -> w' = w)
    /\ (exists l,
          stored (cumulative_index w') = (stored (cumulative_index w) ++ l)%list
          /\ (length l <= 1)%nat
          /\ dim (cumulative_index w') = dim (cumulative_index w))
    /\ (length (db_log w) <= length (db_log w') <= length (db_log w) + 1)%nat.
Proof.
  assert (Hnil : forall ix : FaissIndex,
             exists l, stored ix = (stored ix ++ l)%list
                       /\ (length l <= 1)%nat /\ dim ix = dim ix).
  { intros ix. exists []. rewrite app_nil_r. simpl. auto. }
  unfold _update_cumulative_vector.
  destruct (dec =? "block")%string eqn:Hdec.
  { exists w. unfold_monad. split; [reflexivity|].
    do 5 (split; [reflexivity|]).
    split; [intros p Hp; exists p; repeat split; auto; lia|].
    split; [reflexivity|]. split; [apply Hnil | lia]. }
  apply String.eqb_neq in Hdec.
  unfold_monad. cbn [negb].
  destruct (user_profiles w !! uid) as [p|] eqn:Hp.
  2:{ exists w. rewrite Hp. do 6 (split; [reflexivity|]).
      split; [discriminate|]. split; [reflexivity|].
      split; [apply Hnil | lia]. }
  destruct (blend p sv) as [e|v] eqn:Hb.
  { exists w. rewrite Hp, Hb. split; [reflexivity|].
    do 4 (split; [reflexivity|]). split; [discriminate|].
    split; [intros q [= <-]; exists p; repeat split; auto; lia|].
    split; [contradiction|]. split; [apply Hnil | lia]. }
  repeat split_case; reduce_world; rewrite ?lookup_insert_eq;
    repeat match goal with
      | |- context [blend ?q sv] => destruct (blend q sv) eqn:?
      end.
  all: eexists; split; [reflexivity|]; reduce_world.
  all: split; [reflexivity|]; split; [reflexivity|]; split; [reflexivity|].
  all: split; [intros u Hu; rewrite ?lookup_insert_ne by congruence;
               reflexivity|].
  all: split; [discriminate|].
  all: split; [intros q [= <-]; rewrite ?lookup_insert_eq;
               eexists; split; [reflexivity|]; cbn; repeat split; lia|].
  all: split; [contradiction|].
  all: repeat match goal with
         | A : faiss_add _ _ = inr _ |- _ =>
             apply faiss_add_inr in A as (? & ? & ? & ?)
         end.
  all: (split; [first [ apply Hnil
                      | eexists [_]; repeat split; simpl; eauto ]
               | count_calls; lia]).
Qed.

End UpdateFrame.

(** ** The phase transition on every input *)

Section TransitionFrame.

Variable env : Env.

Lemma check_transition_frame (uid : string) (w : World) :
  exists w',
    _check_learning_phase_transition env uid w = (inr tt, w')
    /\ vector_dimension w' = vector_dimension w
    /\ session_index w' = session_index w
    /\ cumulative_index w' = cumulative_index w
    /\ (forall u, u <> uid -> user_profiles w' !! u = user_profiles w !! u)
    /\ (user_profiles w !! uid = None -> w' = w)
    /\ (forall p, user_profiles w !! uid = Some p ->
          exists p',
            user_profiles w' !! uid = Some p'
            /\ cumulative_vector p' = cumulative_vector p
            /\ vector_count p' = vector_count p
            /\ user_id p' = user_id p
            /\ (learning_phase p' = learning_phase p
                \/ (learning_phase p' = "gradual_risk"
                    /\ 5 <= vector_count p)
                \/ (learning_phase p' = "full_auth"
                    /\ 10 <= vector_count p))
            /\ (baseline_vector p' = baseline_vector p
                \/ (baseline_vector p' = Some (cumulative_vector p)
                    /\ 10 <= vector_count p))).
Proof.
  unfold _check_learning_phase_transition, _update_user_learning_phase,
    _create_baseline_vector.
  unfold_monad.
  destruct (user_profiles w !! uid) as [p|] eqn:Hp.
  2:{ exists w. do 5 (split; [reflexivity|]). split; [reflexivity|discriminate]. }
  repeat (reduce_world; rewrite ?lookup_insert_eq, ?Hp;
          cbn [default from_option id];
          first [split_case | split_if]).
  all: reduce_world; rewrite ?lookup_insert_eq, ?Hp; cbn [default from_option id].
  all: eexists; split; [reflexivity|]; reduce_world.
  all: do 3 (split; [reflexivity|]).
  all: split; [intros u Hu; rewrite ?lookup_insert_ne by congruence;
               reflexivity|].
  all: split; [discriminate|].
  all: intros q [= <-]; rewrite ?lookup_insert_eq, ?Hp;
       eexists; split; [reflexivity|]; cbn.
  all: repeat match goal with
         | H : (_ && _) = true |- _ => apply andb_prop in H as [? H]
         | H : (_ <=? _) = true |- _ => apply Z.leb_le in H
         | H : (_ <? _) = false |- _ => apply Z.ltb_ge in H
         end.
  all: repeat split; auto; tauto.
Qed.

End TransitionFrame.

(** ** The analysis and the pipelines on every input *)

Section PipelineFrame.

Variable env : Env.

(** The analysis either answers or raises (only the division of a count
    that does not convert to a float raises); either way it leaves the
    dimension, the session and cumulative indices, the profiles of other
    users, and the cumulative vector, count and phase of its user alone. *)
Lemma analyze_effect (phase uid : string) (sv : vec) (p : UserVectorProfile)
  (w : World) :
  exists res w',
    analyze env phase uid sv p w = (res, w')
    /\ (forall r, res = inr r ->
          In (decision r) decisions
          /\ (phase = "learning" -> decision r = "learn"))
    /\ (phase = "learning" \/ phase = "gradual_risk" -> w' = w)
    /\ vector_dimension w' = vector_dimension w
    /\ session_index w' = session_index w
    /\ cumulative_index w' = cumulative_index w
    /\ (forall u, u <> uid -> user_profiles w' !! u = user_profiles w !! u)
    /\ (forall q, user_profiles w !! uid = Some q ->
          exists q',
            user_profiles w' !! uid = Some q'
            /\ cumulative_vector q' = cumulative_vector q
            /\ vector_count q' = vector_count q
            /\ learning_phase q' = learning_phase q)
    /\ (vector_count p < float_overflow_bound
        \/ (phase <> "learning" /\ phase <> "gradual_risk") ->
        exists r, res = inr r).
Proof.
  assert (Hsame : forall q, user_profiles w !! uid = Some q ->
            exists q',
              user_profiles w !! uid = Some q'
              /\ cumulative_vector q' = cumulative_vector q
              /\ vector_count q' = vector_count q
              /\ learning_phase q' = learning_phase q).
  { intros q Hq. exists q. auto. }
  assert (Hdiv : forall d e,
            0 <= vector_count p ->
            int_div_float (vector_count p) d = inl e ->
            vector_count p < float_overflow_bound -> False).
  { intros d e H0 Hq Hlt.
    rewrite int_div_float_in_range in Hq by (split; assumption).
    discriminate. }
  unfold analyze.
  destruct (phase =? "learning")%string eqn:E1;
    [|destruct (phase =? "gradual_risk")%string eqn:E2].
  - apply String.eqb_eq in E1. unfold _analyze_learning_phase.
    destruct (0 <? vector_count p) eqn:Hpos.
    + apply Z.ltb_lt in Hpos. unfold bind at 1.
      destruct (find_similar_spec uid sv 5 w) as (l & -> & _).
      unfold bind, lift.
      destruct (int_div_float (vector_count p) 5) as [e|x] eqn:Hq.
      * eexists _, w. split; [reflexivity|].
        split; [intros r; discriminate|].
        do 5 (split; [auto|]). split; [exact Hsame|].
        intros [Hlt|[Hne _]]; [|congruence].
        exfalso. apply (Hdiv _ _ ltac:(lia) Hq Hlt).
      * eexists _, w. split; [reflexivity|].
        split; [intros r [= <-]; simpl; split; [auto 8 | auto]|].
        do 5 (split; [auto|]). split; [exact Hsame|]. eauto.
    + eexists _, w. split; [reflexivity|].
      split; [intros r [= <-]; simpl; split; [auto 8 | auto]|].
      do 5 (split; [auto|]). split; [exact Hsame|]. eauto.
  - apply String.eqb_neq in E1. apply String.eqb_eq in E2.
    unfold _analyze_gradual_phase.
    destruct (vector_count p <? 3) eqn:Hlow.
    { eexists _, w. split; [reflexivity|].
      split; [intros r [= <-]; simpl; split; [auto 8 | congruence]|].
      do 5 (split; [auto|]). split; [exact Hsame|]. eauto. }
    apply Z.ltb_ge in Hlow.
    destruct (threshold_gradual_risk <=? _)%float;
      [|destruct (threshold_gradual_risk * 0.7 <=? _)%float].
    all: unfold bind, lift;
      destruct (int_div_float (vector_count p) 10) as [e|x] eqn:Hq.
    all: eexists _, w; split; [reflexivity|].
    all: split;
      [intros r Hr;
       first [discriminate
             | injection Hr as <-; simpl; split; [auto 8 | congruence]]|].
    all: do 5 (split; [auto|]); split; [exact Hsame|].
    all: try (intros _; eauto; fail).
    all: intros [Hlt|[_ Hne]]; [|congruence].
    all: exfalso; apply (Hdiv _ _ ltac:(lia) Hq Hlt).
  - apply String.eqb_neq in E1. apply String.eqb_neq in E2.
    unfold _analyze_full_auth_phase.
    assert (Hpre : exists w1,
               (match baseline_vector p with
                | Some _ => ret tt
                | None => _create_baseline_vector env uid p
                end) w = (inr tt, w1)
               /\ vector_dimension w1 = vector_dimension w
               /\ session_index w1 = session_index w
               /\ cumulative_index w1 = cumulative_index w
               /\ (forall u, u <> uid ->
                     user_profiles w1 !! u = user_profiles w !! u)
               /\ (forall q, user_profiles w !! uid = Some q ->
                     exists q',
                       user_profiles w1 !! uid = Some q'
                       /\ cumulative_vector q' = cumulative_vector q
                       /\ vector_count q' = vector_count q
                       /\ learning_phase q' = learning_phase q)).
    { destruct (baseline_vector p).
      - exists w. repeat split; auto.
      - unfold _create_baseline_vector. unfold_monad.
        destruct (vector_count p <? 10).
        + exists w. repeat split; auto.
        + repeat split_case.
          all: eexists; split; [reflexivity|]; reduce_world.
          all: do 3 (split; [reflexivity|]).
          all: split; [intros u Hu; rewrite ?lookup_insert_ne by congruence;
                       reflexivity|].
          all: intros q Hq; rewrite ?lookup_insert_eq, ?Hq;
               eexists; split; [reflexivity|]; cbn; auto. }
    destruct Hpre as (w1 & E & Hd & Hs & Hc & Ho & Hu).
    unfold bind at 1. rewrite E. unfold bind at 1, deref.
    unfold bind at 1. destruct (find_similar_spec uid sv 5 w1) as (l & -> & _).
    match goal with
    | |- context [(threshold_full_auth <=? ?s)%float] =>
        destruct (threshold_full_auth <=? s)%float;
        [|destruct (threshold_full_auth * 0.8 <=? s)%float]
    end.
    all: eexists _, w1; split; [reflexivity|].
    all: split; [intros r [= <-]; simpl; split; [auto 8 | congruence]|].
    all: split; [intros [?|?]; congruence|].
    all: do 4 (split; [assumption|]); split; [exact Hu|]; eauto.
Qed.

End PipelineFrame.

Section PipelineEffect.

Variable env : Env.

Lemma store_plain_effect (uid sid : string) (v : vec) (w : World) :
  exists r w',
    _store_session_vector env uid sid v w = (inr r, w')
    /\ user_profiles w' = user_profiles w
    /\ cumulative_index w' = cumulative_index w
    /\ baseline_index w' = baseline_index w
    /\ vector_dimension w' = vector_dimension w
    /\ (r <> None ->
        ntotal (session_index w') = ntotal (session_index w) + 1)
    /\ (ntotal (session_index w) <= ntotal (session_index w')
        <= ntotal (session_index w) + 1).
Proof.
  unfold _store_session_vector. unfold_monad.
  repeat split_case.
  all: eexists _, _; split; [reflexivity|]; reduce_world.
  all: repeat match goal with
         | A : faiss_add _ _ = inr _ |- _ =>
             apply faiss_add_inr in A as (A & _)
         end.
  all: do 4 (split; [reflexivity|]).
  all: unfold ntotal; rewrite ?Hadd, ?length_app; simpl.
  all: split; [intros Hr; try congruence; lia | lia].
Qed.

(** Both pipelines end alike: look up the profile, analyse, attach the
    details, fold the session in.  [fallback] is the result the pipeline
    answers an exception with. *)
Lemma pipeline_tail_effect (phase uid : string) (sv : vec)
  (vid : option string) (osv : option vec) (ost : option VectorStats)
  (fallback : Exn -> VectorAnalysisResult) (w : World) :
  (forall e, decision (fallback e) = "learn"
             /\ vector_id (fallback e) = None) ->
  exists r w',
    try_except
      (user_profile <- _get_or_create_user_profile env uid ;;
       result <- analyze env phase uid sv user_profile ;;
       _update_cumulative_vector env uid sv
         (decision (with_details result vid osv ost)) ;;;
       ret (with_details result vid osv ost))
      (fun e => ret (fallback e)) w = (inr r, w')
    /\ run_effect phase uid w r w'
    /\ session_index w' = session_index w
    /\ (vector_id r = vid \/ vector_id r = None)
    /\ (forall q, user_profiles w !! uid = Some q ->
          vector_count q < float_overflow_bound
          \/ (phase <> "learning" /\ phase <> "gradual_risk") ->
          vector_id r = vid).
Proof.
  intros Hfall.
  destruct (get_or_create_effect env uid w)
    as (p & w2 & E2 & Hl2 & Ho2 & Hs2 & Hc2 & Hb2 & Hd2 & Hsame & _).
  unfold try_except. unfold bind at 1. rewrite E2.
  destruct (analyze_effect env phase uid sv p w2)
    as (res & w3 & E3 & Hres & _ & Hd3 & Hs3 & Hc3 & Ho3 & Hq3 & Hok).
  unfold bind at 1. rewrite E3.
  destruct (Hq3 p Hl2) as (p3 & Hl3 & Hcv3 & Hn3 & Hph3).
  destruct res as [e|r].
  - (* the analysis raised: the fallback answers, nothing is folded in *)
    destruct (Hfall e) as [Hdl Hvl].
    eexists _, w3. split; [reflexivity|]. split; [|split; [|split]].
    + unfold run_effect. rewrite Hdl.
      split; [simpl; auto|]. split; [auto|]. split; [congruence|].
      split; [intros u Hu; rewrite Ho3, Ho2 by exact Hu; reflexivity|].
      split; [|rewrite Hc3, Hc2; lia].
      intros q Hq. destruct (Hsame q Hq) as [-> _].
      exists p3. split; [exact Hl3|]. split; [exact Hph3|].
      split; [lia|]. discriminate.
    + congruence.
    + right. exact Hvl.
    + intros q Hq Hcond. destruct (Hsame q Hq) as [-> _].
      destruct (Hok Hcond) as (r & Hr). discriminate.
  - destruct (Hres r eq_refl) as [Hin Hlearn].
    destruct (update_cumulative_frame env uid sv (decision r) w3)
      as (w4 & E4 & Hs4 & Hb4 & Hd4 & Ho4 & _ & Hq4 & Hblock & Hix & _).
    unfold bind at 1. cbn [with_details decision]. rewrite E4.
    eexists _, w4. split; [reflexivity|]. cbn [decision vector_id].
    destruct (Hq4 p3 Hl3) as (p4 & Hl4 & _ & Hph4 & _ & Hn4).
    split; [|split; [congruence | split; [now left | reflexivity]]].
    unfold run_effect. cbn [decision].
    split; [exact Hin|]. split; [exact Hlearn|]. split; [congruence|].
    split; [intros u Hu; rewrite Ho4, Ho3, Ho2 by exact Hu; reflexivity|].
    split.
    + intros q Hq. destruct (Hsame q Hq) as [-> _].
      exists p4. split; [exact Hl4|]. split; [congruence|].
      split; [lia|]. intros Hblk. specialize (Hblock Hblk). subst w4.
      assert (p4 = p3) by congruence. subst p4. auto.
    + destruct Hix as (l & Hl & Hn & _).
      unfold ntotal. rewrite Hl, Hc3, Hc2, length_app. lia.
Qed.

Lemma run_effect_stay (phase uid : string) (w : World)
  (r : VectorAnalysisResult) :
  decision r = "learn" -> run_effect phase uid w r w.
Proof.
  intros Hr. unfold run_effect. rewrite Hr.
  split; [simpl; auto|]. split; [auto|]. split; [auto|]. split; [auto|].
  split; [|lia]. intros q Hq. exists q. repeat split; auto; try lia.
  all: discriminate.
Qed.

Lemma mobile_pipeline_effect (uid sid phase : string) (logs : list LogEvent)
  (w : World) :
  exists r w',
    process_mobile_behavioral_data env uid sid logs phase w = (inr r, w')
    /\ run_effect phase uid w r w'
    /\ (ntotal (session_index w) <= ntotal (session_index w')
        <= ntotal (session_index w) + 1)
    /\ (vector_id r <> None ->
        ntotal (session_index w') = ntotal (session_index w) + 1)
    /\ (forall q, user_profiles w !! uid = Some q ->
          vector_count q < float_overflow_bound
          \/ (phase <> "learning" /\ phase <> "gradual_risk") ->
          ntotal (session_index w')
          = ntotal (session_index w)
            + match vector_id r with Some _ => 1 | None => 0 end).
Proof.
  assert (Hstay : forall r : VectorAnalysisResult,
    decision r = "learn" -> vector_id r = None ->
    run_effect phase uid w r w
    /\ (ntotal (session_index w) <= ntotal (session_index w)
        <= ntotal (session_index w) + 1)
    /\ (vector_id r <> None ->
        ntotal (session_index w) = ntotal (session_index w) + 1)
    /\ (forall q, user_profiles w !! uid = Some q ->
          vector_count q < float_overflow_bound
          \/ (phase <> "learning" /\ phase <> "gradual_risk") ->
          ntotal (session_index w)
          = ntotal (session_index w)
            + match vector_id r with Some _ => 1 | None => 0 end)).
  { intros r Hr Hv. split; [now apply run_effect_stay|]. rewrite Hv.
    split; [lia|]. split; [congruence|]. intros; lia. }
  unfold process_mobile_behavioral_data,
    process_mobile_behavioral_data_body.
  destruct logs as [|l0 logs'].
  { eexists _, w. split; [reflexivity|]. now apply Hstay. }
  unfold try_except at 1. unfold bind at 1, lift.
  destruct (process_mobile_behavioral_data_vector env (l0 :: logs'))
    as [e|v0].
  { eexists _, w. split; [reflexivity|]. now apply Hstay. }
  set (v := _normalize_vector v0).
  unfold bind at 1.
  destruct (_calculate_vector_stats (numpy_empty_array_error env) v)
    as [e|stats].
  { eexists _, w. split; [reflexivity|]. now apply Hstay. }
  destruct (np_sum_abs v =? 0)%float.
  { eexists _, w. split; [reflexivity|]. now apply Hstay. }
  destruct (store_mobile_effect env uid sid v w)
    as (vid & w1 & E1 & Hp1 & Hc1 & Hb1 & Hd1 & Hsome & Hnone & _).
  unfold bind at 1. rewrite E1.
  destruct (pipeline_tail_effect phase uid v vid (Some v) (Some stats)
              (fun e => mk_result 0%float 0.5%float "learn" "medium"
                          ["Processing error: " ++ e] [] None None None) w1)
    as (r & w' & E & Heff & Hs & Hvid & Hexact);
    [intros e; split; reflexivity|].
  exists r, w'. split; [exact E|].
  assert (Hgrow :
    (ntotal (session_index w) <= ntotal (session_index w1)
     <= ntotal (session_index w) + 1)
    /\ (vid <> None ->
        ntotal (session_index w1) = ntotal (session_index w) + 1)
    /\ ntotal (session_index w1)
       = ntotal (session_index w)
         + match vid with Some _ => 1 | None => 0 end).
  { unfold ntotal. destruct vid as [id|].
    - destruct (Hsome id eq_refl) as (-> & _). rewrite length_app.
      simpl. repeat split; lia.
    - rewrite (Hnone eq_refl). repeat split; try lia. congruence. }
  destruct Hgrow as (Hrange & Hplus & Heq).
  rewrite Hs. split; [|split; [exact Hrange | split]].
  - destruct Heff as (H1 & H2 & H3 & H4 & H5 & H6). unfold run_effect.
    split; [exact H1|]. split; [exact H2|]. split; [congruence|].
    split; [intros u Hu; rewrite H4 by exact Hu; now rewrite Hp1|].
    split; [intros q Hq0; apply H5; now rewrite Hp1|].
    rewrite <- Hc1. exact H6.
  - intros Hv. apply Hplus. destruct Hvid as [Hvid|Hvid]; congruence.
  - intros q Hq Hcond. rewrite <- Hp1 in Hq.
    rewrite (Hexact q Hq Hcond). exact Heq.
Qed.

Lemma plain_pipeline_effect (uid sid phase : string) (logs : list LogEvent)
  (w : World) :
  exists r w',
    process_behavioral_data env uid sid logs phase w = (inr r, w')
    /\ run_effect phase uid w r w'
    /\ (ntotal (session_index w) <= ntotal (session_index w')
        <= ntotal (session_index w) + 1)
    /\ (vector_id r <> None ->
        ntotal (session_index w') = ntotal (session_index w) + 1).
Proof.
  unfold process_behavioral_data, process_behavioral_data_body.
  unfold try_except at 1. unfold bind at 1, lift.
  destruct (process_behavioral_logs_vector env logs) as [e|v0].
  { eexists _, w. split; [reflexivity|].
    split; [now apply run_effect_stay|]. split; [lia | simpl; congruence]. }
  set (v := _normalize_vector v0).
  destruct (store_plain_effect uid sid v w)
    as (vid & w1 & E1 & Hp1 & Hc1 & Hb1 & Hd1 & Hsome & Hrange).
  unfold bind at 1. rewrite E1.
  destruct (pipeline_tail_effect phase uid v vid None None
              (fun _ => mk_result 0%float 0.5%float "learn" "medium"
                          ["Processing error"] [] None None None) w1)
    as (r & w' & E & Heff & Hs & Hvid & _);
    [intros e; split; reflexivity|].
  exists r, w'. split; [exact E|].
  rewrite Hs. split; [|split; [exact Hrange|]].
  - destruct Heff as (H1 & H2 & H3 & H4 & H5 & H6). unfold run_effect.
    split; [exact H1|]. split; [exact H2|]. split; [congruence|].
    split; [intros u Hu; rewrite H4 by exact Hu; now rewrite Hp1|].
    split; [intros q Hq0; apply H5; now rewrite Hp1|].
    rewrite <- Hc1. exact H6.
  - intros Hv. apply Hsome. destruct Hvid as [Hvid|Hvid]; congruence.
Qed.

End PipelineEffect.

(** ** Normalisation, statistics and the similarity search *)

(** X2. Normalisation keeps the dimension of a vector.  A vector whose
    norm is zero is handed back as it is, the zero norm never being divided
    by: that is every vector of zeros, and also a vector such as
    (1e-200, 0), whose squares vanish in binary64.  Every other vector is
    divided, entry by entry, by its norm. *)
Theorem normalize_vector_shape (v : vec) :
  length (_normalize_vector v) = length v
  /\ (all_zero v -> _normalize_vector v = v)
  /\ ((np_linalg_norm v =? 0)%float = true -> _normalize_vector v = v)
  /\ ((np_linalg_norm v =? 0)%float = false ->
      _normalize_vector v = map (fun x => (x / np_linalg_norm v)%float) v)
  /\ _normalize_vector [1e-200; 0]%float = [1e-200; 0]%float.
Proof.
  split; [apply length_normalize|]. split; [apply normalize_all_zero|].
  unfold _normalize_vector.
  split; [intros ->; reflexivity|].
  split; [intros ->; reflexivity|]. reflexivity.
Qed.

Lemma count_nonzero_bounds (v : vec) :
  0 <= np_count_nonzero v <= Z.of_nat (length v).
Proof.
  unfold np_count_nonzero. split; [lia|].
  apply Nat2Z.inj_le, List.filter_length_le.
Qed.

Lemma count_nonzero_all_zero (v : vec) :
  all_zero v -> np_count_nonzero v = 0.
Proof.
  unfold np_count_nonzero, all_zero.
  induction 1 as [|x l [-> | ->] _ IH]; [reflexivity| |]; simpl; exact IH.
Qed.

(** X3. The statistics of a vector.  The empty vector raises, with the
    text the installed numpy gives its failure; otherwise the length is
    reported, the zero and non-zero counts are not negative and add up to
    it, and a vector of zeros has no non-zero entry. *)
Theorem vector_stats_counts (empty_array_error : Exn) (v : vec) :
  (v = [] -> _calculate_vector_stats empty_array_error v
             = inl empty_array_error)
  /\ (v <> [] ->
      exists st,
        _calculate_vector_stats empty_array_error v = inr st
        /\ st_length st = Z.of_nat (length v)
        /\ st_non_zero_count st + st_zero_count st = st_length st
        /\ 0 <= st_non_zero_count st <= st_length st
        /\ 0 <= st_zero_count st <= st_length st
        /\ (all_zero v -> st_non_zero_count st = 0
                          /\ st_zero_count st = st_length st)).
Proof.
  split; [intros ->; reflexivity|].
  intros Hne. unfold _calculate_vector_stats.
  destruct (Z.eqb_spec (Z.of_nat (length v)) 0) as [E|E].
  { destruct v; [contradiction | discriminate]. }
  eexists. split; [reflexivity|]. cbn [st_length st_non_zero_count st_zero_count].
  pose proof (count_nonzero_bounds v) as Hb.
  repeat split; try lia.
  - rewrite (count_nonzero_all_zero v) by assumption. reflexivity.
  - rewrite (count_nonzero_all_zero v) by assumption. lia.
Qed.

(** X4. The similarity search never raises and never writes; it answers
    with at most [k] entries and no more than the cumulative index holds,
    each tagged cumulative and labelled by a position of that index; an
    empty index or a query of another dimension gives the empty list; and
    the answer does not depend on the user id it is called with. *)
Theorem find_similar_vectors_safe (uid : string) (q : vec) (k : Z)
  (w : World) :
  exists l,
    _find_similar_vectors uid q k w = (inr l, w)
    /\ (length l <= Z.to_nat k)%nat
    /\ Z.of_nat (length l) <= ntotal (cumulative_index w)
    /\ Forall (fun s => sv_type s = "cumulative"
                        /\ 0 <= sv_index s < ntotal (cumulative_index w)) l
    /\ (stored (cumulative_index w) = [] -> l = [])
    /\ (length q <> dim (cumulative_index w) -> l = [])
    /\ (forall uid', _find_similar_vectors uid' q k w
                     = _find_similar_vectors uid q k w).
Proof.
  destruct (find_similar_spec uid q k w) as (l & E & Hk & Hall).
  exists l. split; [exact E|]. split; [exact Hk|].
  assert (Hn : Z.of_nat (length l) <= ntotal (cumulative_index w)).
  { revert E. unfold _find_similar_vectors, try_except, bind, get_world,
      lift, ret, faiss_search.
    destruct (Z.ltb_spec 0 (ntotal (cumulative_index w))) as [Hpos|Hpos].
    - destruct (length (_normalize_vector q) =? dim (cumulative_index w))%nat.
      + intros [= <-]. rewrite length_take, length_map.
        pose proof (List.filter_length_le
                      (fun h : float * Z => negb (snd h =? -1))
                      (firstn (Z.to_nat (Z.min k (ntotal (cumulative_index w))))
                         (rank_hits (metric (cumulative_index w))
                            (_normalize_vector q)
                            (stored (cumulative_index w)) 0 []))) as Hf.
        rewrite length_take in Hf. lia.
      + intros [= <-]. simpl. lia.
    - intros [= <-]. simpl. unfold ntotal. lia. }
  split; [exact Hn|]. split; [exact Hall|]. split; [|split].
  - intros Hs. unfold ntotal in Hn. rewrite Hs in Hn. simpl in Hn.
    destruct l; [reflexivity | simpl in Hn; lia].
  - intros Hq. revert E. unfold _find_similar_vectors, try_except, bind,
      get_world, lift, ret, faiss_search.
    rewrite length_normalize.
    destruct (Nat.eqb_spec (length q) (dim (cumulative_index w)));
      [contradiction|].
    destruct (0 <? ntotal (cumulative_index w)); now intros [= <-].
  - reflexivity.
Qed.

(** ** Storing a session vector *)

Section StorageOutcome.

Variable env : Env.

(** X5. Storing a session vector of the mobile pipeline never raises and
    never touches a profile or the other two indices; it makes between one
    and three database calls; and it hands back an id exactly when the
    vector went into the session index, once and at its end, which takes a
    vector of the dimension of the index. *)
Theorem store_mobile_outcome (uid sid : string) (v : vec) (w : World) :
  exists r w',
    _store_session_vector_mobile env uid sid v w = (inr r, w')
    /\ user_profiles w' = user_profiles w
    /\ cumulative_index w' = cumulative_index w
    /\ baseline_index w' = baseline_index w
    /\ match r with
       | Some _ =>
           stored (session_index w') = (stored (session_index w) ++ [v])%list
           /\ length v = dim (session_index w)
       | None => session_index w' = session_index w
       end
    /\ (length v <> dim (session_index w) -> r = None)
    /\ (length (db_log w) < length (db_log w')
        <= length (db_log w) + 3)%nat.
Proof.
  destruct (store_mobile_effect env uid sid v w)
    as (r & w' & E & Hp & Hc & Hb & _ & Hsome & Hnone & Hlog).
  exists r, w'. split; [exact E|]. do 3 (split; [assumption|]).
  split; [|split; [|exact Hlog]].
  - destruct r as [id|]; [|now apply Hnone].
    destruct (Hsome id eq_refl) as (Hs & _ & Hl). now split.
  - intros Hne. destruct r as [id|]; [|reflexivity].
    destruct (Hsome id eq_refl) as (_ & _ & Hl). contradiction.
Qed.

(** X6. Which id the mobile store hands back, for a vector of the
    dimension of the session index: the id of the inserted row when the
    insert answers with a row; nothing, and no entry in the index, when it
    answers without one; an id starting with emergency_ when the insert
    raises anything but a foreign-key violation (code 23503); and an id
    starting with local_ when the insert raises that violation and the
    creation of the user profile raises too.  In the last two cases the
    vector is in the session index although the database has no record of
    it. *)
Theorem store_mobile_ids (uid sid : string) (v : vec) (w : World) :
  length v = dim (session_index w) ->
  exists r w',
    _store_session_vector_mobile env uid sid v w = (inr r, w')
    /\ (forall row rows,
          db_reply env (length (db_log w)) = DbData (row :: rows) ->
          r = Some (row_id row)
          /\ db_log w'
             = (db_log w
                  ++ [InsertVector
                        (mk_record (_generate_uuid_from_string uid) sid v
                           SESSION 0.8%float "mobile_behavioral_data"
                           None)])%list)
    /\ (db_reply env (length (db_log w)) = DbData [] ->
        r = None /\ session_index w' = session_index w)
    /\ (forall msg,
          db_reply env (length (db_log w)) = DbRaise msg ->
          str_contains "23503" msg = false ->
          r = Some ("emergency_" ++ uid ++ "_" ++ str_of_int (utcnow env))
          /\ stored (session_index w')
             = (stored (session_index w) ++ [v])%list
          /\ length (db_log w') = S (length (db_log w)))
    /\ (forall msg msg',
          db_reply env (length (db_log w)) = DbRaise msg ->
          str_contains "23503" msg = true ->
          db_reply env (S (length (db_log w))) = DbRaise msg' ->
          r = Some ("local_" ++ uid ++ "_" ++ sid ++ "_"
                      ++ str_of_int (utcnow env))
          /\ stored (session_index w')
             = (stored (session_index w) ++ [v])%list
          /\ db_log w'
             = (db_log w
                  ++ [InsertVector
                        (mk_record (_generate_uuid_from_string uid) sid v
                           SESSION 0.8%float "mobile_behavioral_data"
                           None);
                      InsertUserProfile (_generate_uuid_from_string uid)
                        uid])%list).
Proof.
  intros Hlen.
  assert (Hadd : faiss_add (session_index w) v
                 = inr (mk_index (metric (session_index w))
                          (dim (session_index w))
                          (stored (session_index w) ++ [v]))).
  { unfold faiss_add. rewrite Hlen, Nat.eqb_refl. reflexivity. }
  unfold _store_session_vector_mobile. unfold_monad. reduce_world.
  destruct (db_reply env (length (db_log w))) as [msg|[|row rows]] eqn:R1.
  - destruct (str_contains "23503" msg) eqn:Hfk.
    + reduce_world. rewrite length_app. cbn [length].
      replace (length (db_log w) + 1)%nat with (S (length (db_log w))) by lia.
      destruct (db_reply env (S (length (db_log w)))) as [msg'|[|u us]] eqn:R2.
      * reduce_world. rewrite Hadd.
        eexists _, _. split; [reflexivity|]. reduce_world.
        split; [discriminate|]. split; [discriminate|]. split.
        { intros m [= <-]. congruence. }
        intros m m' _ _ _. split; [reflexivity|]. split; [reflexivity|].
        rewrite <- app_assoc. reflexivity.
      * eexists _, _. split; [reflexivity|].
        split; [discriminate|]. split; [discriminate|]. split.
        { intros m [= <-]. congruence. }
        intros m m' _ _. discriminate.
      * reduce_world. rewrite !length_app. cbn [length].
        destruct (db_reply env (length (db_log w) + 1 + 1))
          as [msg3|[|r3 rs3]]; reduce_world;
          rewrite ?Hadd;
          (eexists _, _; split; [reflexivity|];
           split; [discriminate|]; split; [discriminate|]; split;
           [intros m [= <-]; congruence | intros m m' _ _; discriminate]).
    + reduce_world. rewrite Hadd.
      eexists _, _. split; [reflexivity|]. reduce_world.
      split; [discriminate|]. split; [discriminate|]. split.
      * intros m _ _. split; [reflexivity|]. split; [reflexivity|].
        rewrite length_app. simpl. lia.
      * intros m m' [= <-]. congruence.
  - eexists _, _. split; [reflexivity|]. reduce_world.
    split; [discriminate|]. split; [auto|].
    split; [discriminate|]. discriminate.
  - reduce_world. rewrite Hadd.
    eexists _, _. split; [reflexivity|]. reduce_world.
    split; [intros ? ? [= <- <-]; auto|].
    split; [discriminate|]. split; discriminate.
Qed.

(** X7. The store of the other pipeline keeps the user id as given in its
    record and has no fallback: when the insert raises, nothing is handed
    back and nothing enters the index; when it does not, the vector enters
    the session index whether or not a row came back, provided it has the
    dimension of the index.  Profiles and the other two indices are never
    touched. *)
Theorem store_plain_outcome (uid sid : string) (v : vec) (w : World) :
  exists r w',
    _store_session_vector env uid sid v w = (inr r, w')
    /\ db_log w'
       = (db_log w
            ++ [InsertVector
                  (mk_record uid sid v SESSION 1%float
                     "mobile_behavioral_data" None)])%list
    /\ user_profiles w' = user_profiles w
    /\ cumulative_index w' = cumulative_index w
    /\ baseline_index w' = baseline_index w
    /\ (forall msg,
          db_reply env (length (db_log w)) = DbRaise msg ->
          r = None /\ session_index w' = session_index w)
    /\ (forall rows,
          db_reply env (length (db_log w)) = DbData rows ->
          length v = dim (session_index w) ->
          r = option_map row_id (head rows)
          /\ stored (session_index w')
             = (stored (session_index w) ++ [v])%list)
    /\ (length v <> dim (session_index w) ->
        r = None /\ session_index w' = session_index w).
Proof.
  unfold _store_session_vector. unfold_monad. reduce_world.
  unfold faiss_add.
  destruct (db_reply env (length (db_log w))) as [msg|rows] eqn:R1;
    reduce_world;
    [|destruct (Nat.eqb_spec (length v) (dim (session_index w)))].
  all: eexists _, _; split; [reflexivity|]; reduce_world.
  all: do 4 (split; [reflexivity|]).
  - split; [auto|]. split; [discriminate|]. auto.
  - split; [discriminate|]. split; [|contradiction].
    intros rows' [= <-] _. destruct rows; auto.
  - split; [discriminate|]. split; [contradiction|]. auto.
Qed.

End StorageOutcome.

Lemma store_mobile_ids_witness :
  exists r w',
    _store_session_vector_mobile failing_env "alice" "s1" [1; 0]%float
      (engine_with 2 (mk_profile "alice" [0; 0]%float None [] 0 0 "learning"))
    = (inr r, w')
    /\ r = Some "emergency_alice_0"
    /\ stored (session_index w') = [[1; 0]%float].
Proof.
  destruct (store_mobile_ids failing_env "alice" "s1" [1; 0]%float
              (engine_with 2
                 (mk_profile "alice" [0; 0]%float None [] 0 0 "learning")))
    as (r & w' & E & _ & _ & H & _); [reflexivity|].
  exists r, w'. split; [exact E|].
  destruct (H "connection refused") as (Hr & Hs & _);
    [reflexivity | reflexivity |].
  split; [exact Hr | exact Hs].
Defined.

(** ** Loading and caching a profile *)

Section ProfileCache.

Variable env : Env.

(** X8. A profile is loaded once: the look-up never raises, leaves the
    profile it answers with in the cache under the user id, and a second
    look-up, whatever the database would say then, answers with the same
    profile without a database call or any other change.  The profiles of
    other users and the three indices are not touched. *)
Theorem profile_lookup_cached (env' : Env) (uid : string) (w : World) :
  exists p w',
    _get_or_create_user_profile env uid w = (inr p, w')
    /\ user_profiles w' !! uid = Some p
    /\ _get_or_create_user_profile env' uid w' = (inr p, w')
    /\ (forall u, u <> uid -> user_profiles w' !! u = user_profiles w !! u)
    /\ session_index w' = session_index w
    /\ cumulative_index w' = cumulative_index w
    /\ baseline_index w' = baseline_index w.
Proof.
  destruct (get_or_create_effect env uid w)
    as (p & w' & E & Hc & Ho & Hs & Hcu & Hb & _).
  exists p, w'. split; [exact E|]. split; [exact Hc|].
  split; [|repeat split; assumption].
  destruct (get_or_create_effect env' uid w')
    as (p2 & w2 & E2 & _ & _ & _ & _ & _ & _ & Hsame & _).
  destruct (Hsame p Hc) as [-> ->]. exact E2.
Qed.

(** X9. A user who is not cached gets the default profile (a cumulative
    vector of zeros of the engine's dimension, count 0, no baseline, phase
    learning) when the database has no row in any of the three tables
    asked, and also when any of the three calls raises: a failure of the
    second or third call discards what the first one loaded. *)
Theorem new_user_default_profile (uid : string) (w : World) :
  user_profiles w !! uid = None ->
  (exists msg, db_reply env (length (db_log w)) = DbRaise msg)
  \/ (exists msg, db_reply env (S (length (db_log w))) = DbRaise msg)
  \/ (exists msg, db_reply env (S (S (length (db_log w)))) = DbRaise msg)
  \/ (db_reply env (length (db_log w)) = DbData []
      /\ db_reply env (S (length (db_log w))) = DbData []
      /\ db_reply env (S (S (length (db_log w)))) = DbData []) ->
  exists w',
    _get_or_create_user_profile env uid w
    = (inr (default_profile env uid w), w')
    /\ user_profiles w'
       = <[uid := default_profile env uid w]> (user_profiles w).
Proof.
  intros Hc Hdb.
  unfold _get_or_create_user_profile. unfold_monad. rewrite Hc.
  reduce_world.
  destruct (db_reply env (length (db_log w))) as [m1|rows1] eqn:R1.
  { eexists. split; reflexivity. }
  destruct rows1 as [|row1 rest1]; reduce_world; count_calls.
  - destruct (db_reply env (S (length (db_log w)))) as [m2|rows2] eqn:R2.
    { eexists. split; reflexivity. }
    reduce_world. count_calls.
    destruct (db_reply env (S (S (length (db_log w))))) as [m3|rows3] eqn:R3.
    { eexists. split; reflexivity. }
    destruct Hdb as [[m H]|[[m H]|[[m H]|(H1 & H2 & H3)]]]; try discriminate.
    injection H2 as ->. injection H3 as ->.
    eexists. split; reflexivity.
  - destruct (db_reply env (S (length (db_log w)))) as [m2|rows2] eqn:R2.
    { eexists. split; reflexivity. }
    reduce_world. count_calls.
    destruct (db_reply env (S (S (length (db_log w))))) as [m3|rows3] eqn:R3.
    { eexists. split; reflexivity. }
    destruct Hdb as [[m H]|[[m H]|[[m H]|(H1 & H2 & H3)]]]; discriminate.
Qed.

End ProfileCache.

Lemma new_user_default_profile_witness :
  exists w',
    _get_or_create_user_profile failing_env "bob" (new_engine 3)
    = (inr (mk_profile "bob" [0; 0; 0]%float None [] 0 0 "learning"), w')
    /\ user_profiles w' !! "bob"
       = Some (mk_profile "bob" [0; 0; 0]%float None [] 0 0 "learning").
Proof.
  destruct (new_user_default_profile failing_env "bob" (new_engine 3))
    as (w' & E & Hp).
  - reflexivity.
  - left. eexists. reflexivity.
  - exists w'. split; [exact E|]. rewrite Hp. apply lookup_insert_eq.
Defined.

(** ** What is written and what is read back *)

Section RoundTrip.

Variables env env' : Env.


(** X11. The baseline record is not written under the key the loader
    asks for.  Baseline creation for a profile with ten sessions or more
    sends one insert, typed baseline, holding the cumulative vector and the
    user id as given; the loader asks for the baseline of the generated
    id; and the generated id differs from every user id that is not itself
    in the 8-4-4-4-12 form. *)
Theorem baseline_record_key (uid : string) (p : UserVectorProfile)
  (w : World) :
  10 <= vector_count p ->
  exists rec w',
    _create_baseline_vector env uid p w = (inr tt, w')
    /\ db_log w' = (db_log w ++ [InsertVector rec])%list
    /\ rec_vector_type rec = BASELINE
    /\ rec_vector_data rec = cumulative_vector p
    /\ rec_user_id rec = uid
    /\ (forall (w0 : World) (rows1 : list DbRow),
          user_profiles w0 !! uid = None ->
          db_reply env' (length (db_log w0)) = DbData rows1 ->
          nth_error (db_log (snd (_get_or_create_user_profile env' uid w0)))
                    (S (length (db_log w0)))
          = Some (SelectLatestVector (_generate_uuid_from_string uid)
                    BASELINE))
    /\ (is_canonical_uuid uid = false ->
        rec_user_id rec <> _generate_uuid_from_string uid).
Proof.
  intros Hn.
  assert (Hlt : (vector_count p <? 10) = false) by (apply Z.ltb_ge; lia).
  assert (Hkey : is_canonical_uuid uid = false ->
                 uid <> _generate_uuid_from_string uid).
  { intros Hnc Heq.
    pose proof (digest_bytes (MD5.bytes_of_string uid)) as [Hl Ha].
    pose proof (canonical_of_bytes _ Hl Ha) as Hcan.
    change (uuid_of_bytes (MD5.digest (MD5.bytes_of_string uid)))
      with (_generate_uuid_from_string uid) in Hcan.
    rewrite <- Heq in Hcan. congruence. }
  assert (Hload :
    forall (w0 : World) (rows1 : list DbRow),
      user_profiles w0 !! uid = None ->
      db_reply env' (length (db_log w0)) = DbData rows1 ->
      nth_error (db_log (snd (_get_or_create_user_profile env' uid w0)))
                (S (length (db_log w0)))
      = Some (SelectLatestVector (_generate_uuid_from_string uid) BASELINE)).
  { intros w0 rows1 H0 R1.
    unfold _get_or_create_user_profile. unfold_monad. rewrite H0.
    reduce_world. rewrite R1.
    assert (Hnth : forall l c1 c2 (tl : list DbCall),
              l = db_log w0 ->
              nth_error (((l ++ [c1]) ++ [c2]) ++ tl) (S (length (db_log w0)))
              = Some c2).
    { intros l c1 c2 tl ->. rewrite <- !app_assoc.
      rewrite nth_error_app2 by lia.
      replace (S (length (db_log w0)) - length (db_log w0))%nat with 1%nat
        by lia.
      reflexivity. }
    destruct rows1 as [|row1 rest1]; reduce_world; count_calls.
    all: destruct (db_reply env' (S (length (db_log w0)))) as [m2|rows2];
      reduce_world; count_calls.
    all: try (rewrite <- (app_nil_r (_ ++ [_])); now apply Hnth).
    all: destruct (db_reply env' (S (S (length (db_log w0))))) as [m3|rows3];
      reduce_world.
    all: first [ now apply (Hnth _ _ _ [_])
               | rewrite <- (app_nil_r ((_ ++ [_]) ++ [_])); now apply Hnth ]. }
  unfold _create_baseline_vector. rewrite Hlt. unfold_monad. reduce_world.
  destruct (db_reply env (length (db_log w))) as [msg|rows]; reduce_world;
    [|destruct (faiss_add (baseline_index w) (cumulative_vector p))].
  all: eexists _, _; split; [reflexivity|]; reduce_world.
  all: split; [reflexivity|]; repeat split; assumption.
Qed.

End RoundTrip.


Lemma baseline_record_key_witness :
  exists rec w',
    _create_baseline_vector quiet_env "alice"
      (mk_profile "alice" [1; 0]%float None [] 10 0 "gradual_risk")
      (engine_with 2
         (mk_profile "alice" [1; 0]%float None [] 10 0 "gradual_risk"))
    = (inr tt, w')
    /\ db_log w' = [InsertVector rec]
    /\ rec_user_id rec = "alice"
    /\ rec_user_id rec <> _generate_uuid_from_string "alice".
Proof.
  destruct (baseline_record_key quiet_env quiet_env "alice"
              (mk_profile "alice" [1; 0]%float None [] 10 0 "gradual_risk")
              (engine_with 2
                 (mk_profile "alice" [1; 0]%float None [] 10 0
                    "gradual_risk")))
    as (rec & w' & E & Hlog & _ & _ & Hid & _ & Hne).
  - simpl. lia.
  - exists rec, w'. repeat split; try assumption. now apply Hne.
Defined.

(** ** Updates and transitions on every input *)

Section EveryInput.

Variable env : Env.

(** X12. The cumulative update, on every input and whatever the database
    answers: it never raises, makes at most one database call, touches
    neither the session index nor the baseline index nor the profile of
    another user, appends at most one vector to the cumulative index, and
    leaves the user's baseline and phase as they are; the count never goes
    down and rises by at most two. *)
Theorem cumulative_update_total (uid : string) (sv : vec) (dec : string)
  (w : World) :
  exists w',
    _update_cumulative_vector env uid sv dec w = (inr tt, w')
    /\ session_index w' = session_index w
    /\ baseline_index w' = baseline_index w
    /\ (forall u, u <> uid -> user_profiles w' !! u = user_profiles w !! u)
    /\ (forall p, user_profiles w !! uid = Some p ->
          exists p',
            user_profiles w' !! uid = Some p'
            /\ baseline_vector p' = baseline_vector p
            /\ learning_phase p' = learning_phase p
            /\ vector_count p <= vector_count p' <= vector_count p + 2)
    /\ (exists l,
          stored (cumulative_index w')
          = (stored (cumulative_index w) ++ l)%list
          /\ (length l <= 1)%nat)
    /\ (length (db_log w) <= length (db_log w')
        <= length (db_log w) + 1)%nat.
Proof.
  destruct (update_cumulative_frame env uid sv dec w)
    as (w' & E & Hs & Hb & _ & Ho & _ & Hp & _ & (l & Hl & Hn & _) & Hlog).
  exists w'. split; [exact E|]. do 3 (split; [assumption|]).
  split; [|split; [exists l; auto | exact Hlog]].
  intros p Hc. destruct (Hp p Hc) as (p' & Hc' & H1 & H2 & _ & H3).
  exists p'. auto.
Qed.

(** X13. The phase check, on every input and whatever the database
    answers: it never raises, does nothing at all for a user who is not
    cached, touches neither the session index nor the cumulative index nor
    the profile of another user, and never changes the user's cumulative
    vector or count.  The phase in memory stays or becomes gradual_risk
    (only with 5 sessions or more) or full_auth (only with 10 or more); the
    baseline stays or becomes the cumulative vector (only with 10 or
    more). *)
Theorem phase_check_total (uid : string) (w : World) :
  exists w',
    _check_learning_phase_transition env uid w = (inr tt, w')
    /\ session_index w' = session_index w
    /\ cumulative_index w' = cumulative_index w
    /\ (forall u, u <> uid -> user_profiles w' !! u = user_profiles w !! u)
    /\ (user_profiles w !! uid = None -> w' = w)
    /\ (forall p, user_profiles w !! uid = Some p ->
          exists p',
            user_profiles w' !! uid = Some p'
            /\ cumulative_vector p' = cumulative_vector p
            /\ vector_count p' = vector_count p
            /\ (learning_phase p' = learning_phase p
                \/ (learning_phase p' = "gradual_risk"
                    /\ 5 <= vector_count p)
                \/ (learning_phase p' = "full_auth"
                    /\ 10 <= vector_count p))
            /\ (baseline_vector p' = baseline_vector p
                \/ (baseline_vector p' = Some (cumulative_vector p)
                    /\ 10 <= vector_count p))).
Proof.
  destruct (check_transition_frame env uid w)
    as (w' & E & _ & Hs & Hc & Ho & Hn & Hp).
  exists w'. split; [exact E|]. do 4 (split; [assumption|]).
  intros p Hcached.
  destruct (Hp p Hcached) as (p' & Hc' & H1 & H2 & _ & H3 & H4).
  exists p'. auto.
Qed.

(** X14. From learning to the gradual phase.  For a cached profile with 5
    sessions or more whose phase in the database row is the text learning
    (or whose row lacks the column, which the code reads as learning; a
    column holding NULL is not: see the next property), the phase check
    asks for the profile and sends the update to
    gradual_risk, and nothing else, also with 10 sessions or more; the
    phase in memory is gradual_risk afterwards if that update did not
    raise, whatever it was in memory before, and is what it was if the
    update raised.  Baseline, cumulative vector, count and the indices
    stay. *)
Theorem learning_to_gradual_transition (uid : string)
  (p : UserVectorProfile) (w : World) (row : DbRow) (rows : list DbRow) :
  user_profiles w !! uid = Some p ->
  db_reply env (length (db_log w)) = DbData (row :: rows) ->
  row_current_phase row = Value "learning"
  \/ row_current_phase row = Absent ->
  5 <= vector_count p ->
  exists w' p',
    _check_learning_phase_transition env uid w = (inr tt, w')
    /\ db_log w'
       = (db_log w
            ++ [SelectUserProfile uid;
                UpdateUserPhase uid "gradual_risk"])%list
    /\ user_profiles w' !! uid = Some p'
    /\ learning_phase p'
       = match db_reply env (S (length (db_log w))) with
         | DbData _ => "gradual_risk"
         | DbRaise _ => learning_phase p
         end
    /\ baseline_vector p' = baseline_vector p
    /\ cumulative_vector p' = cumulative_vector p
    /\ vector_count p' = vector_count p
    /\ session_index w' = session_index w
    /\ cumulative_index w' = cumulative_index w
    /\ baseline_index w' = baseline_index w.
Proof.
  intros Hc Hrow Hph Hn.
  assert (Hdef : dict_get (row_current_phase row) "learning"
                 = Some "learning").
  { destruct Hph as [-> | ->]; reflexivity. }
  assert (H5 : (5 <=? vector_count p) = true) by (apply Z.leb_le; lia).
  unfold _check_learning_phase_transition, _update_user_learning_phase.
  unfold_monad. rewrite Hc. reduce_world. rewrite Hrow. rewrite Hdef, H5.
  cbn [py_str_eqb String.eqb Ascii.eqb Bool.eqb andb]. reduce_world.
  count_calls.
  destruct (db_reply env (S (length (db_log w)))) as [msg|rows'];
    reduce_world; rewrite ?Hc.
  all: eexists _, _; split; [reflexivity|]; reduce_world.
  all: rewrite <- ?app_assoc; split; [reflexivity|].
  all: rewrite ?lookup_insert_eq; split; [first [exact Hc | reflexivity]|].
  all: repeat split.
Qed.

(** X15. When no transition is due.  For a cached profile the phase check
    asks the database for the profile and changes nothing (no profile, no
    index) when the count is below 5, when the request raises or finds no
    row, when the phase in the database is neither learning nor a
    gradual_risk with 10 sessions or more, and when the phase column holds
    NULL. *)
Theorem phase_check_not_due (uid : string) (p : UserVectorProfile)
  (w : World) :
  user_profiles w !! uid = Some p ->
  vector_count p < 5
  \/ (exists msg, db_reply env (length (db_log w)) = DbRaise msg)
  \/ db_reply env (length (db_log w)) = DbData []
  \/ (exists row rows ph,
         db_reply env (length (db_log w)) = DbData (row :: rows)
         /\ row_current_phase row = Value ph
         /\ ph <> "learning"
         /\ (ph <> "gradual_risk" \/ vector_count p < 10))
  \/ (exists row rows,
         db_reply env (length (db_log w)) = DbData (row :: rows)
         /\ row_current_phase row = Null) ->
  exists w',
    _check_learning_phase_transition env uid w = (inr tt, w')
    /\ user_profiles w' = user_profiles w
    /\ session_index w' = session_index w
    /\ cumulative_index w' = cumulative_index w
    /\ baseline_index w' = baseline_index w
    /\ db_log w' = (db_log w ++ [SelectUserProfile uid])%list.
Proof.
  intros Hc Hwhy.
  unfold _check_learning_phase_transition. unfold_monad. rewrite Hc.
  reduce_world.
  destruct (db_reply env (length (db_log w))) as [msg|[|row rows]] eqn:R.
  1,2: eexists; split; [reflexivity|]; repeat split.
  assert (Hno :
    py_str_eqb (dict_get (row_current_phase row) "learning") "learning"
      && (5 <=? vector_count p) = false
    /\ py_str_eqb (dict_get (row_current_phase row) "learning")
         "gradual_risk"
       && (10 <=? vector_count p) = false).
  { destruct Hwhy
      as [Hlt|[[m H]|[H|[(r0 & rs & ph & H & Hph & Hnl & Hng)
                        |(r0 & rs & H & Hph)]]]];
      try discriminate.
    - assert (H5 : (5 <=? vector_count p) = false) by (apply Z.leb_gt; lia).
      assert (H10 : (10 <=? vector_count p) = false) by (apply Z.leb_gt; lia).
      rewrite H5, H10, !andb_false_r. auto.
    - injection H as <- <-. rewrite Hph. cbn [dict_get py_str_eqb].
      apply String.eqb_neq in Hnl. rewrite Hnl. cbn [andb].
      split; [reflexivity|]. destruct Hng as [Hng|Hng].
      + apply String.eqb_neq in Hng. rewrite Hng. reflexivity.
      + assert (H10 : (10 <=? vector_count p) = false)
          by (apply Z.leb_gt; lia).
        rewrite H10. apply andb_false_r.
    - injection H as <- <-. rewrite Hph. split; reflexivity. }
  destruct Hno as [-> ->].
  eexists; split; [reflexivity|]; repeat split.
Qed.

End EveryInput.

Lemma learning_to_gradual_transition_witness :
  exists w' p',
    _check_learning_phase_transition
      (mk_env (fun n => match n with
                        | O => DbData [mk_row "1" [] None 0 (Value "learning")]
                        | _ => DbData []
                        end) 0 (fun _ => inr []) (fun _ => inr [])
                          "division by zero")
      "alice"
      (engine_with 2 (mk_profile "alice" [1; 0]%float None [] 12 0 "full_auth"))
    = (inr tt, w')
    /\ user_profiles w' !! "alice" = Some p'
    /\ learning_phase p' = "gradual_risk"
    /\ baseline_vector p' = None.
Proof.
  destruct (learning_to_gradual_transition
              (mk_env (fun n => match n with
                                | O => DbData [mk_row "1" [] None 0
                                                 (Value "learning")]
                                | _ => DbData []
                                end) 0 (fun _ => inr []) (fun _ => inr [])
                                  "division by zero")
              "alice"
              (mk_profile "alice" [1; 0]%float None [] 12 0 "full_auth")
              (engine_with 2
                 (mk_profile "alice" [1; 0]%float None [] 12 0 "full_auth"))
              (mk_row "1" [] None 0 (Value "learning")) [])
    as (w' & p' & E & _ & Hc & Hph & Hb & _).
  - reflexivity.
  - reflexivity.
  - left. reflexivity.
  - simpl. lia.
  - exists w', p'. repeat split; assumption.
Defined.

Lemma phase_check_not_due_witness :
  exists w',
    _check_learning_phase_transition quiet_env_gradual "alice"
      (engine_with 2
         (mk_profile "alice" [1; 0]%float None [] 9 0 "gradual_risk"))
    = (inr tt, w')
    /\ user_profiles w'
       = {[ "alice" :=
              mk_profile "alice" [1; 0]%float None [] 9 0 "gradual_risk" ]}.
Proof.
  destruct (phase_check_not_due quiet_env_gradual "alice"
              (mk_profile "alice" [1; 0]%float None [] 9 0 "gradual_risk")
              (engine_with 2
                 (mk_profile "alice" [1; 0]%float None [] 9 0
                    "gradual_risk")))
    as (w' & E & Hp & _).
  - reflexivity.
  - right. right. right. left.
    exists (mk_row "1" [] None 0 (Value "gradual_risk")), [], "gradual_risk".
    split; [reflexivity|]. split; [reflexivity|].
    split; [discriminate|]. right. simpl. lia.
  - exists w'. split; [exact E | exact Hp].
Defined.

(** ** The update at the end of a session *)

Section SessionEnd.

Variable env : Env.

Lemma end_session_runs (uid sid : string) (w : World) :
  end_session_update env uid sid w
  = match db_reply env (length (db_log w)) with
    | DbData (r :: _) =>
        (inr tt,
         snd (_check_learning_phase_transition env uid
                (snd (_update_cumulative_vector env uid
                        (np_array_float32 (row_vector_data r)) "allow"
                        (after_select sid w)))))
    | _ => (inr tt, after_select sid w)
    end.
Proof.
  unfold end_session_update, try_except. unfold bind at 1, db_execute.
  fold (after_select sid w).
  destruct (db_reply env (length (db_log w))) as [msg|[|r rows]];
    try reflexivity.
  destruct (update_cumulative_frame env uid
              (np_array_float32 (row_vector_data r)) "allow"
              (after_select sid w)) as (w1 & E1 & _).
  destruct (check_transition_frame env uid w1) as (w2 & E2 & _).
  unfold bind. rewrite E1. cbn [snd]. rewrite E2. reflexivity.
Qed.

(** X16. The session-end update, on every input and whatever the database
    answers: it never raises and first asks for the session vector by the
    session id alone; it touches neither the session index nor the profile
    of another user; when the request raises or finds no row, and when the
    user is not cached, no profile and no index changes; for a cached user
    the count never goes down and rises by at most two. *)
Theorem end_session_total (uid sid : string) (w : World) :
  exists w',
    end_session_update env uid sid w = (inr tt, w')
    /\ nth_error (db_log w') (length (db_log w))
       = Some (SelectSessionVector sid)
    /\ session_index w' = session_index w
    /\ (forall u, u <> uid -> user_profiles w' !! u = user_profiles w !! u)
    /\ ((forall r rows,
           db_reply env (length (db_log w)) <> DbData (r :: rows))
        \/ user_profiles w !! uid = None ->
        w' = after_select sid w)
    /\ (forall p, user_profiles w !! uid = Some p ->
          exists p',
            user_profiles w' !! uid = Some p'
            /\ vector_count p <= vector_count p' <= vector_count p + 2).
Proof.
  assert (Hnth : forall l : list DbCall,
             nth_error ((db_log w ++ [SelectSessionVector sid]) ++ l)
                       (length (db_log w))
             = Some (SelectSessionVector sid)).
  { intros l. rewrite <- app_assoc, nth_error_app2 by lia.
    rewrite Nat.sub_diag. reflexivity. }
  rewrite end_session_runs.
  destruct (db_reply env (length (db_log w))) as [msg|[|r rows]] eqn:R.
  1,2: exists (after_select sid w); split; [reflexivity|];
       split; [rewrite <- (app_nil_r (db_log (after_select sid w)));
               apply Hnth|];
       split; [reflexivity|]; split; [reflexivity|]; split; [reflexivity|];
       intros p Hp; exists p; split; [exact Hp | lia].
  destruct (update_cumulative_frame env uid
              (np_array_float32 (row_vector_data r)) "allow"
              (after_select sid w))
    as (w1 & E1 & Hs1 & Hb1 & Hd1 & Ho1 & Hn1 & Hp1 & _ & _ & Hlog1).
  destruct (check_transition_frame env uid w1)
    as (w2 & E2 & Hd2 & Hs2 & Hc2 & Ho2 & Hn2 & Hp2).
  rewrite E1. cbn [snd]. rewrite E2. cbn [snd].
  exists w2. split; [reflexivity|]. split.
  { assert (Hpre : exists l, db_log w2
                             = ((db_log w ++ [SelectSessionVector sid]) ++ l)%list).
    { clear - E1 E2.
      assert (Hext1 : exists l1, db_log w1
                = (db_log (after_select sid w) ++ l1)%list).
      { revert E1. unfold _update_cumulative_vector. unfold_monad.
        repeat first [split_case | split_if
                     | match goal with
                       | |- context [match ?x !! ?k with _ => _ end] =>
                           destruct (x !! k)
                       | |- context [match blend ?a ?b with _ => _ end] =>
                           destruct (blend a b)
                       end]; reduce_world.
        all: intros [= <-]; reduce_world.
        all: first [ exists []; now rewrite app_nil_r
                   | eexists [_]; reflexivity ]. }
      assert (Hext2 : exists l2, db_log w2 = (db_log w1 ++ l2)%list).
      { revert E2. unfold _check_learning_phase_transition,
          _update_user_learning_phase, _create_baseline_vector.
        unfold_monad.
        repeat first [split_case | split_if
                     | match goal with
                       | |- context [match ?x !! ?k with _ => _ end] =>
                           destruct (x !! k)
                       end]; reduce_world.
        all: intros [= <-]; reduce_world.
        all: rewrite <- ?app_assoc.
        all: first [ exists []; now rewrite app_nil_r
                   | eexists; reflexivity ]. }
      destruct Hext1 as (l1 & H1). destruct Hext2 as (l2 & H2).
      exists (l1 ++ l2)%list. rewrite H2, H1. cbn [after_select db_log].
      now rewrite <- !app_assoc. }
    destruct Hpre as (l & ->). apply Hnth. }
  split; [rewrite Hs2, Hs1; reflexivity|].
  split; [intros u Hu; rewrite Ho2, Ho1 by exact Hu; reflexivity|].
  split.
  - intros [Hno|Hnone]; [exfalso; exact (Hno r rows eq_refl)|].
    assert (w1 = after_select sid w) by now apply Hn1.
    subst w1. now apply Hn2.
  - intros p Hp. destruct (Hp1 p Hp) as (p1 & Hc1 & _ & _ & _ & Hcount).
    destruct (Hp2 p1 Hc1) as (p2 & Hc2' & _ & Hcount2 & _).
    exists p2. split; [exact Hc2' | lia].
Qed.


End SessionEnd.


(** ** The two pipelines and the statistics *)

Section Pipelines.

Variable env : Env.

(** X18. Both pipelines, on every input and whatever the database and the
    processor answer: they never raise; the decision is one of allow,
    challenge, block and learn, and it is learn whenever the caller passes
    the learning phase; the dimension of the engine and the profiles of
    other users are not touched. *)
Theorem pipelines_total (uid sid phase : string) (logs : list LogEvent)
  (w : World) :
  (exists r w',
      process_mobile_behavioral_data env uid sid logs phase w = (inr r, w')
      /\ In (decision r) decisions
      /\ (phase = "learning" -> decision r = "learn")
      /\ vector_dimension w' = vector_dimension w
      /\ (forall u, u <> uid ->
                    user_profiles w' !! u = user_profiles w !! u))
  /\ (exists r w',
         process_behavioral_data env uid sid logs phase w = (inr r, w')
         /\ In (decision r) decisions
         /\ (phase = "learning" -> decision r = "learn")
         /\ vector_dimension w' = vector_dimension w
         /\ (forall u, u <> uid ->
                       user_profiles w' !! u = user_profiles w !! u)).
Proof.
  split.
  - destruct (mobile_pipeline_effect env uid sid phase logs w)
      as (r & w' & E & (H1 & H2 & H3 & H4 & _) & _).
    exists r, w'. auto.
  - destruct (plain_pipeline_effect env uid sid phase logs w)
      as (r & w' & E & (H1 & H2 & H3 & H4 & _) & _).
    exists r, w'. auto.
Qed.

(** X19. What a pipeline run does to the cached profile of its user, in
    both pipelines: the phase kept in memory is never changed (the analysis
    follows the phase the caller passes); the count never goes down and
    rises by at most two; and when the decision is block, the cumulative
    vector and the count are left as they were. *)
Theorem pipelines_profile_effect (uid sid phase : string)
  (logs : list LogEvent) (q : UserVectorProfile) (w : World) :
  user_profiles w !! uid = Some q ->
  (exists r w' q',
      process_mobile_behavioral_data env uid sid logs phase w = (inr r, w')
      /\ user_profiles w' !! uid = Some q'
      /\ learning_phase q' = learning_phase q
      /\ vector_count q <= vector_count q' <= vector_count q + 2
      /\ (decision r = "block" ->
          cumulative_vector q' = cumulative_vector q
          /\ vector_count q' = vector_count q))
  /\ (exists r w' q',
         process_behavioral_data env uid sid logs phase w = (inr r, w')
         /\ user_profiles w' !! uid = Some q'
         /\ learning_phase q' = learning_phase q
         /\ vector_count q <= vector_count q' <= vector_count q + 2
         /\ (decision r = "block" ->
             cumulative_vector q' = cumulative_vector q
             /\ vector_count q' = vector_count q)).
Proof.
  intros Hq. split.
  - destruct (mobile_pipeline_effect env uid sid phase logs w)
      as (r & w' & E & (_ & _ & _ & _ & H & _) & _).
    destruct (H q Hq) as (q' & H1 & H2 & H3 & H4).
    exists r, w', q'. auto.
  - destruct (plain_pipeline_effect env uid sid phase logs w)
      as (r & w' & E & (_ & _ & _ & _ & H & _) & _).
    destruct (H q Hq) as (q' & H1 & H2 & H3 & H4).
    exists r, w', q'. auto.
Qed.

(** X20. Requests the mobile pipeline turns away before anything is
    stored: without events the answer is learn with confidence 0.5, risk
    medium and the factor No behavioral data provided; when the processor
    raises, and when it extracts an empty vector (on which the statistics
    raise), the answer is the same with the text of the exception as
    factor, which for the empty vector is the text the installed numpy
    gives.  In all three cases the engine is left as it was: no database
    call, no index entry, no profile. *)
Theorem mobile_pipeline_turns_away (uid sid phase : string)
  (logs : list LogEvent) (w : World) :
  (logs = [] ->
   process_mobile_behavioral_data env uid sid logs phase w
   = (inr (mk_result 0%float 0.5%float "learn" "medium"
             ["No behavioral data provided"] [] None None None), w))
  /\ (forall e,
        logs <> [] ->
        process_mobile_behavioral_data_vector env logs = inl e ->
        process_mobile_behavioral_data env uid sid logs phase w
        = (inr (mk_result 0%float 0.5%float "learn" "medium"
                  ["Processing error: " ++ e] [] None None None), w))
  /\ (logs <> [] ->
      process_mobile_behavioral_data_vector env logs = inr [] ->
      process_mobile_behavioral_data env uid sid logs phase w
      = (inr (mk_result 0%float 0.5%float "learn" "medium"
                ["Processing error: " ++ numpy_empty_array_error env] []
                None None None),
         w)).
Proof.
  unfold process_mobile_behavioral_data, try_except,
    process_mobile_behavioral_data_body.
  split; [intros ->; reflexivity|]. split.
  - intros e Hne He. destruct logs as [|l0 logs']; [contradiction|].
    unfold bind at 1, lift. rewrite He. reflexivity.
  - intros Hne He. destruct logs as [|l0 logs']; [contradiction|].
    unfold bind at 1, lift. rewrite He. reflexivity.
Qed.

(** X21. The statistics of a user are those of the cached profile: for a
    cached user they are read without any database call or change; for a
    user who is not cached the look-up loads a profile (one to three
    database calls) and leaves it in the cache.  With rows of the columns'
    types the error dictionary is never the answer. *)
Theorem user_statistics_of_profile (uid : string) (w : World) :
  exists st w' p,
    get_user_vector_statistics env uid w = (inr (inr st), w')
    /\ user_profiles w' !! uid = Some p
    /\ us_user_id st = uid
    /\ us_vector_count st = vector_count p
    /\ (us_has_baseline st = true <-> baseline_vector p <> None)
    /\ us_learning_phase st = learning_phase p
    /\ us_cumulative_vector_norm st = np_linalg_norm (cumulative_vector p)
    /\ (forall q, user_profiles w !! uid = Some q -> p = q /\ w' = w)
    /\ (user_profiles w !! uid = None ->
        user_profiles w' = <[uid := p]> (user_profiles w)
        /\ (length (db_log w) < length (db_log w')
            <= length (db_log w) + 3)%nat).
Proof.
  destruct (get_or_create_effect env uid w)
    as (p & w' & E & Hc & _ & _ & _ & _ & _ & Hsame & Hnew).
  unfold get_user_vector_statistics, try_except, bind. rewrite E.
  eexists _, w', p. split; [reflexivity|]. cbn.
  split; [exact Hc|]. do 2 (split; [reflexivity|]).
  split; [destruct (baseline_vector p); split; congruence|].
  do 2 (split; [reflexivity|]). split; [exact Hsame|].
  intros Hn. destruct (Hnew Hn) as (H1 & _ & H2). auto.
Qed.

(** X22. The layer statistics after a run of the mobile pipeline: reading
    them changes nothing; the number of session vectors has gone up by one
    whenever the result carries a vector id, and by at most one in any
    case; for a cached user whose count converts to a float (or a phase
    argument other than learning and gradual_risk, where no count is
    converted) it has gone up by one exactly when the result carries a
    vector id; the number of cumulative vectors has gone up by at most
    one; dimension and thresholds are as before. *)
Theorem layer_statistics_after_pipeline (uid sid phase : string)
  (logs : list LogEvent) (w : World) :
  exists r w' st st',
    process_mobile_behavioral_data env uid sid logs phase w = (inr r, w')
    /\ get_layer_statistics w = (inr st, w)
    /\ get_layer_statistics w' = (inr st', w')
    /\ (ls_session_vectors st <= ls_session_vectors st'
        <= ls_session_vectors st + 1)
    /\ (vector_id r <> None ->
        ls_session_vectors st' = ls_session_vectors st + 1)
    /\ (forall q, user_profiles w !! uid = Some q ->
          vector_count q < float_overflow_bound
          \/ (phase <> "learning" /\ phase <> "gradual_risk") ->
          ls_session_vectors st'
          = ls_session_vectors st
            + match vector_id r with Some _ => 1 | None => 0 end)
    /\ (ls_cumulative_vectors st <= ls_cumulative_vectors st'
        <= ls_cumulative_vectors st + 1)
    /\ ls_vector_dimension st' = ls_vector_dimension st
    /\ ls_similarity_thresholds st' = ls_similarity_thresholds st.
Proof.
  destruct (mobile_pipeline_effect env uid sid phase logs w)
    as (r & w' & E & (_ & _ & Hd & _ & _ & Hc) & Hrange & Hplus & Hexact).
  eexists r, w', _, _. split; [exact E|].
  split; [reflexivity|]. split; [reflexivity|].
  cbn [ls_session_vectors ls_cumulative_vectors ls_vector_dimension
       ls_similarity_thresholds].
  auto 10.
Qed.

(** X23. The pipeline and the session-end update each fold the session
    vector into the profile.  For a cached profile in a well-dimensioned
    engine whose count converts to a float, and a request in the learning
    phase whose extracted vector has the engine's dimension and is not
    zero, the pipeline answers learn and raises the count by one; when the
    session-end update is then answered with that session's vector, it
    raises the count by one more: two for one session. *)
Theorem session_folded_twice (uid sid : string) (logs : list LogEvent)
  (v0 : vec) (p : UserVectorProfile) (w : World) (row : DbRow)
  (rows : list DbRow) :
  well_dimensioned w ->
  user_profiles w !! uid = Some p ->
  vector_count p < float_overflow_bound ->
  logs <> [] ->
  process_mobile_behavioral_data_vector env logs = inr v0 ->
  length v0 = vector_dimension w ->
  (np_sum_abs (_normalize_vector v0) =? 0)%float = false ->
  db_reply env
    (length (db_log (snd (process_mobile_behavioral_data env uid sid logs
                            "learning" w))))
  = DbData (row :: rows) ->
  row_vector_data row = _normalize_vector v0 ->
  exists r w1 p1 w2 p2,
    process_mobile_behavioral_data env uid sid logs "learning" w
    = (inr r, w1)
    /\ decision r = "learn"
    /\ user_profiles w1 !! uid = Some p1
    /\ vector_count p1 = vector_count p + 1
    /\ end_session_update env uid sid w1 = (inr tt, w2)
    /\ user_profiles w2 !! uid = Some p2
    /\ vector_count p2 = vector_count p + 2.
Proof.
  intros Hwd Hc Hbound Hne Hv0 Hlen Hsum Hrow Hvec.
  set (v := _normalize_vector v0) in *.
  assert (Hlv : length v = vector_dimension w).
  { subst v. now rewrite length_normalize. }
  assert (Hstats : exists st,
             _calculate_vector_stats (numpy_empty_array_error env) v
             = inr st).
  { unfold _calculate_vector_stats.
    destruct (Z.eqb_spec (Z.of_nat (length v)) 0) as [E|E]; [|eauto].
    destruct v; [discriminate Hsum | discriminate E]. }
  destruct Hstats as (st & Hst).
  assert (Hrun : exists r w1 p1,
    process_mobile_behavioral_data env uid sid logs "learning" w
    = (inr r, w1)
    /\ decision r = "learn"
    /\ user_profiles w1 !! uid = Some p1
    /\ vector_count p1 = vector_count p + 1
    /\ well_dimensioned w1
    /\ vector_dimension w1 = vector_dimension w).
  { unfold process_mobile_behavioral_data, try_except,
      process_mobile_behavioral_data_body.
    destruct logs as [|l0 logs']; [contradiction|].
    unfold bind at 1, lift. rewrite Hv0. fold v.
    unfold bind at 1. rewrite Hst, Hsum.
    destruct (store_mobile_effect env uid sid v w)
      as (vid & wa & Ea & Hpa & Hca & _ & Hda & _).
    unfold bind at 1. rewrite Ea.
    assert (Hca' : user_profiles wa !! uid = Some p) by now rewrite Hpa.
    assert (Hwda : well_dimensioned wa).
    { destruct Hwd as [Hix Hprof]. split; [congruence|].
      intros u q Hq. rewrite Hpa in Hq. rewrite Hda. eauto. }
    destruct (get_or_create_effect env uid wa)
      as (p0 & wb & Eb & _ & _ & _ & _ & _ & _ & Hsame & _).
    destruct (Hsame p Hca') as [-> ->].
    unfold bind at 1. rewrite Eb.
    destruct (analyze_effect env "learning" uid v p wa)
      as (res & wc & Ec & Hres & Hstay & _ & _ & _ & _ & _ & Hok).
    destruct Hok as (r & ->); [now left|].
    destruct (Hres r eq_refl) as [_ Hlearn].
    specialize (Hlearn eq_refl).
    assert (wc = wa) by (apply Hstay; now left). subst wc.
    unfold bind at 1. rewrite Ec. cbv zeta.
    cbn [with_details decision]. rewrite Hlearn.
    destruct (cumulative_update_step env uid v "learn" p wa)
      as (w1 & p1 & E1 & Hc1 & Hstep & _ & _ & Hwd1 & Hd1 & _);
      try assumption; [discriminate | congruence |].
    unfold bind at 1. rewrite E1.
    eexists _, w1, p1. split; [reflexivity|]. cbn [decision].
    split; [exact Hlearn|]. split; [exact Hc1|].
    split; [apply (f_equal snd) in Hstep; exact Hstep|].
    split; [exact Hwd1 | congruence]. }
  destruct Hrun as (r & w1 & p1 & E1 & Hlearn & Hc1 & Hn1 & Hwd1 & Hd1).
  rewrite E1 in Hrow. cbn [snd] in Hrow.
  assert (Hend : exists w3 p3,
    end_session_update env uid sid w1 = (inr tt, w3)
    /\ user_profiles w3 !! uid = Some p3
    /\ vector_count p3 = vector_count p1 + 1).
  { rewrite end_session_runs, Hrow, Hvec.
    destruct (cumulative_update_step env uid (np_array_float32 v) "allow" p1
                (after_select sid w1))
      as (w2 & p2 & E2 & Hc2 & Hstep2 & _);
      try assumption;
      [discriminate
      |unfold np_array_float32; rewrite length_map;
       cbn [after_select vector_dimension]; congruence|].
    destruct (check_transition_frame env uid w2)
      as (w3 & E3 & _ & _ & _ & _ & _ & Hp3).
    destruct (Hp3 p2 Hc2) as (p3 & Hc3 & Hcv & Hn & _).
    rewrite E2. cbn [snd]. rewrite E3. cbn [snd].
    exists w3, p3. split; [reflexivity|]. split; [exact Hc3|].
    rewrite Hn. apply (f_equal snd) in Hstep2. exact Hstep2. }
  destruct Hend as (w3 & p3 & E3 & Hc3 & Hn3).
  exists r, w1, p1, w3, p3.
  split; [exact E1|]. split; [exact Hlearn|]. split; [exact Hc1|].
  split; [exact Hn1|]. split; [exact E3|]. split; [exact Hc3|].
  rewrite Hn3, Hn1. rewrite <- Z.add_assoc. reflexivity.
Qed.

End Pipelines.

Lemma pipelines_profile_effect_witness :
  exists r w' q',
    process_mobile_behavioral_data vector_34_env "alice" "s1"
      [mk_event "touch"] "full_auth"
      (engine_with 2 (mk_profile "alice" [1; 0]%float None [] 3 0 "learning"))
    = (inr r, w')
    /\ decision r = "block"
    /\ user_profiles w' !! "alice" = Some q'
    /\ learning_phase q' = "learning"
    /\ cumulative_vector q' = [1; 0]%float
    /\ vector_count q' = 3.
Proof.
  destruct (pipelines_profile_effect vector_34_env "alice" "s1" "full_auth"
              [mk_event "touch"]
              (mk_profile "alice" [1; 0]%float None [] 3 0 "learning")
              (engine_with 2
                 (mk_profile "alice" [1; 0]%float None [] 3 0 "learning")))
    as [(r & w' & q' & E & Hc & Hph & _ & Hblock) _]; [reflexivity|].
  assert (Hd : decision r = "block").
  { vm_compute in E. injection E as <- _. reflexivity. }
  destruct (Hblock Hd) as [Hcv Hn].
  exists r, w', q'. repeat split; assumption.
Defined.

Lemma session_folded_twice_witness :
  exists r w1 w2 p2,
    process_mobile_behavioral_data
      (mk_env (fun _ => DbData [mk_row "7" (_normalize_vector [3; 4]%float)
                                  None 0 Absent])
              0 (fun _ => inr [3; 4]%float) (fun _ => inr [3; 4]%float)
              "division by zero")
      "alice" "s1" [mk_event "touch"] "learning"
      (engine_with 2 (mk_profile "alice" [1; 0]%float None [] 3 0 "learning"))
    = (inr r, w1)
    /\ end_session_update
         (mk_env (fun _ => DbData [mk_row "7" (_normalize_vector [3; 4]%float)
                                     None 0 Absent])
                 0 (fun _ => inr [3; 4]%float) (fun _ => inr [3; 4]%float)
                 "division by zero")
         "alice" "s1" w1
       = (inr tt, w2)
    /\ user_profiles w2 !! "alice" = Some p2
    /\ vector_count p2 = 5.
Proof.
  destruct (session_folded_twice
              (mk_env (fun _ => DbData [mk_row "7"
                                          (_normalize_vector [3; 4]%float)
                                          None 0 Absent])
                      0 (fun _ => inr [3; 4]%float)
                      (fun _ => inr [3; 4]%float) "division by zero")
              "alice" "s1" [mk_event "touch"] [3; 4]%float
              (mk_profile "alice" [1; 0]%float None [] 3 0 "learning")
              (engine_with 2
                 (mk_profile "alice" [1; 0]%float None [] 3 0 "learning"))
              (mk_row "7" (_normalize_vector [3; 4]%float) None 0 Absent) [])
    as (r & w1 & p1 & w2 & p2 & E1 & _ & _ & _ & E2 & Hc2 & Hn).
  - split; [reflexivity|]. intros u q Hq. simpl in Hq.
    apply lookup_singleton_Some in Hq as [_ <-]. reflexivity.
  - reflexivity.
  - vm_compute. reflexivity.
  - discriminate.
  - reflexivity.
  - reflexivity.
  - vm_compute. reflexivity.
  - reflexivity.
  - reflexivity.
  - exists r, w1, w2, p2. repeat split; assumption.
Defined.

(** ** Start-up and the learning status *)

Lemma load_table_spec (reply : DbResponse) (ix : FaissIndex) :
  match load_table reply ix with
  | inr ix' =>
      loads (dim ix) reply = true
      /\ ix' = mk_index (metric ix) (dim ix)
                 (stored ix ++ reply_vectors reply)
  | inl _ => loads (dim ix) reply = false
  end.
Proof.
  destruct reply as [msg|rows]; [reflexivity|].
  assert (Hall : forallb (fun v : list float => (length v =? dim ix)%nat)
                   (map row_vector_data rows)
                 = loads (dim ix) (DbData rows)).
  { simpl. induction rows as [|r rows IH]; simpl; [reflexivity|].
    now rewrite IH. }
  destruct rows as [|r rows].
  - simpl. split; [reflexivity|]. rewrite app_nil_r. now destruct ix.
  - unfold load_table, faiss_add_all. rewrite Hall.
    destruct (loads (dim ix) (DbData (r :: rows))); auto.
Qed.

(** X24. The engine after start-up, whatever it held before and whatever
    the database answers: the three indices are inner-product indices of
    the engine's dimension; profiles are not touched; an index holds the
    vectors of its table, in the order of the reply, when that table and
    every table asked before it (session, then cumulative, then baseline)
    answered without raising and with vectors of the engine's dimension
    only, and is empty otherwise: the first failure ends the loading. *)
Theorem initialize_loads (r1 r2 r3 : DbResponse) (w : World) :
  let d := vector_dimension w in
  let w' := initialize r1 r2 r3 w in
  vector_dimension w' = d
  /\ user_profiles w' = user_profiles w
  /\ session_index w'
     = mk_index MetricIP d (if loads d r1 then reply_vectors r1 else [])
  /\ cumulative_index w'
     = mk_index MetricIP d
         (if loads d r1 && loads d r2 then reply_vectors r2 else [])
  /\ baseline_index w'
     = mk_index MetricIP d
         (if loads d r1 && loads d r2 && loads d r3
          then reply_vectors r3 else [])
  /\ Forall (fun v => length v = d)
       (stored (session_index w') ++ stored (cumulative_index w')
          ++ stored (baseline_index w'))%list.
Proof.
  intros d w'.
  assert (Hvec : forall r, loads d r = true ->
                           Forall (fun v => length v = d) (reply_vectors r)).
  { intros [msg|rows] H; [constructor|]. simpl in *.
    induction rows as [|x rows IH]; [constructor|]. simpl in H.
    apply andb_prop in H as [Hx Hr]. constructor; [|now apply IH].
    now apply Nat.eqb_eq. }
  assert (Hmain :
    vector_dimension w' = d
    /\ user_profiles w' = user_profiles w
    /\ session_index w'
       = mk_index MetricIP d (if loads d r1 then reply_vectors r1 else [])
    /\ cumulative_index w'
       = mk_index MetricIP d
           (if loads d r1 && loads d r2 then reply_vectors r2 else [])
    /\ baseline_index w'
       = mk_index MetricIP d
           (if loads d r1 && loads d r2 && loads d r3
            then reply_vectors r3 else [])).
  { subst w'. unfold initialize, _load_existing_vectors. reduce_world.
    pose proof (load_table_spec r1 (mk_index MetricIP d [])) as H1.
    fold d. destruct (load_table r1 (mk_index MetricIP d [])) as [e|s].
    { simpl in H1. rewrite H1. simpl. auto. }
    destruct H1 as [H1 ->]. simpl in H1. rewrite H1. reduce_world.
    pose proof (load_table_spec r2 (mk_index MetricIP d [])) as H2.
    destruct (load_table r2 (mk_index MetricIP d [])) as [e|c].
    { simpl in H2. rewrite H2. simpl. auto. }
    destruct H2 as [H2 ->]. simpl in H2. rewrite H2. reduce_world.
    pose proof (load_table_spec r3 (mk_index MetricIP d [])) as H3.
    destruct (load_table r3 (mk_index MetricIP d [])) as [e|b].
    { simpl in H3. rewrite H3. simpl. auto. }
    destruct H3 as [H3 ->]. simpl in H3. rewrite H3. simpl. auto. }
  destruct Hmain as (Hd & Hp & Hs & Hc & Hb).
  do 5 (split; [assumption|]).
  rewrite Hs, Hc, Hb. cbn [stored].
  destruct (loads d r1) eqn:L1, (loads d r2) eqn:L2, (loads d r3) eqn:L3;
    cbn [andb]; rewrite ?app_nil_r; cbn [app];
    repeat (apply Forall_app; split); auto.
Qed.

(** X25. The learning status.  A user who is not cached is reported as a
    learner with no session, 5 sessions needed and no baseline, whatever
    the database holds and without asking it.  For a cached user the
    status reports the phase and the count kept in memory, a baseline
    exactly when the request found a row, and the text of the exception
    when the request raises; the sessions needed are never negative, fill
    the count up to 5 in the learning phase and up to 10 in the gradual
    phase, and are 0 in any other phase. *)
Theorem learning_status_report (reply : DbResponse) (uid : string)
  (w : World) :
  (user_profiles w !! uid = None ->
   get_user_learning_status reply uid w
   = inr (mk_learning_status "learning" 0 5 false None))
  /\ (forall p msg,
        user_profiles w !! uid = Some p -> reply = DbRaise msg ->
        get_user_learning_status reply uid w = inl msg)
  /\ (forall p rows,
        user_profiles w !! uid = Some p -> reply = DbData rows ->
        exists st,
          get_user_learning_status reply uid w = inr st
          /\ lst_learning_phase st = learning_phase p
          /\ lst_vector_count st = vector_count p
          /\ (lst_baseline_created st = true <-> rows <> [])
          /\ 0 <= lst_sessions_needed st
          /\ (learning_phase p = "learning" ->
              lst_sessions_needed st = Z.max 0 (5 - vector_count p)
              /\ (lst_sessions_needed st = 0 <-> 5 <= vector_count p))
          /\ (learning_phase p = "gradual_risk" ->
              lst_sessions_needed st = Z.max 0 (10 - vector_count p)
              /\ (lst_sessions_needed st = 0 <-> 10 <= vector_count p))
          /\ (learning_phase p <> "learning" ->
              learning_phase p <> "gradual_risk" ->
              lst_sessions_needed st = 0)).
Proof.
  unfold get_user_learning_status.
  split; [intros ->; reflexivity|]. split.
  - intros p msg -> ->. reflexivity.
  - intros p rows -> ->. eexists. split; [reflexivity|].
    cbn [lst_learning_phase lst_vector_count lst_baseline_created
         lst_sessions_needed].
    split; [reflexivity|]. split; [reflexivity|]. split.
    { destruct rows as [|r0 rows]; [split; [discriminate | congruence]|].
      split; [discriminate|]. intros _. apply Z.ltb_lt.
      cbn [length]. lia. }
    unfold py_str in *.
    destruct (learning_phase p) as [ph|]; cbn [py_str_eqb].
    2:{ split; [lia|]. split; [discriminate|]. split; [discriminate|].
        reflexivity. }
    destruct (String.eqb_spec ph "learning") as [E1|E1];
      [|destruct (String.eqb_spec ph "gradual_risk") as [E2|E2]].
    all: split; [lia|].
    all: split;
      [intros H; first [congruence | split; [reflexivity | lia]]|].
    all: split;
      [intros H; first [congruence | split; [reflexivity | lia]]|].
    all: intros H1 H2; first [congruence | reflexivity].
Qed.
